(** * Grid bot: position-management state machine of [main.py]

    A shallow embedding of [GridBot] (src/main.py): the grid zone tracker,
    the P&L calculator, loss-recovery sizing, the open / reverse / close
    transitions and the SQLite-backed ledger.

    Numbers.  Python floats are idealised as exact rationals ([Q]); every
    statement about a numeric value is made up to [==] ([Qeq]).  Rounding
    error of IEEE arithmetic is outside the model. *)

From Stdlib Require Import QArith Qabs Qminmax ZArith String List Sorted Bool Lia Lqa.
From Stdlib Require Import Permutation Qround.
Import ListNotations.
Open Scope Q_scope.

(** ** Python primitives used by the bot *)

Module Py.

(** [x < y] on numbers. *)
Definition lt (x y : Q) : bool := negb (Qle_bool y x).

(** [x <= y] on numbers. *)
Definition le (x y : Q) : bool := Qle_bool x y.

(** Truth value of a number: [0] and [0.0] are false. *)
Definition truthy (x : Q) : bool := negb (Qeq_bool x 0).

(** Truth value of an attribute that holds [None] or a number. *)
Definition truthy_opt (x : option Q) : bool :=
  match x with
  | None => false
  | Some v => truthy v
  end.

(** [max(a, b)]: the first argument unless the second is greater. *)
Definition max (a b : Q) : Q := if lt a b then b else a.

(** [min(a, b)]: the first argument unless the second is smaller. *)
Definition min (a b : Q) : Q := if lt b a then b else a.

(** [x or d] for a nullable number. *)
Definition or_else (x : option Q) (d : Q) : Q :=
  match x with
  | Some v => if truthy v then v else d
  | None => d
  end.

(** [x or d] for a nullable integer. *)
Definition or_elseZ (x : option Z) (d : Z) : Z :=
  match x with
  | Some v => if Z.eqb v 0 then d else v
  | None => d
  end.

(** [enumerate(l)]. *)
Definition enumerate {A : Type} (l : list A) : list (nat * A) :=
  combine (seq 0 (length l)) l.

End Py.

(** ** Data model *)

(** The position dictionary [{"side", "size", "entry_price"}]. The key
    ["unrealized_pnl"] that [get_position_info] adds is never read. *)
Record Position := mkPosition {
  side : string;
  size : Q;
  entry_price : Q
}.

(** One row of table [trades] (the autoincrement id and the timestamp are
    assigned by SQLite). *)
Record Trade := mkTrade {
  trade_side : string;
  trade_grid_level : Q;
  trade_usdt_amount : Q;
  trade_pnl : Q;
  trade_accumulated_losses_after : Q
}.

(** The row [id = 1] of table [bot_state]; every column is nullable. *)
Record BotStateRow := mkRow {
  col_accumulated_losses : option Q;
  col_daily_pnl : option Q;
  col_total_trades : option Z;
  col_current_grid_level : option Q
}.

(** Contents of [data/gridbot.db].  The only [INSERT] into [bot_state] is
    the one of [init_database], with [id = 1], so the table holds that row
    or nothing. *)
Record Db := mkDb {
  bot_state : option BotStateRow;
  trades : list Trade
}.

(** The attributes of [GridBot] that the trading logic reads or writes. *)
Record GridBot := mkGridBot {
  leverage : Q;
  base_usdt : Q;
  grid_levels : list Q;
  sl_roe : Q;
  tp_roe : Q;
  qty_step : Q;
  min_qty : Q;
  current_position : option Position;
  current_grid_level : option Q;
  last_price : option Q;
  accumulated_losses : Q;
  daily_pnl : Q;
  total_trades : Z;
  current_order_id : option string;
  last_grid_zone : option nat;
  conn : option Db
}.

(** Attribute assignments [self.x = v]. *)
Definition set_current_position (v : option Position) (b : GridBot) : GridBot :=
  mkGridBot (leverage b) (base_usdt b) (grid_levels b) (sl_roe b) (tp_roe b)
    (qty_step b) (min_qty b) v (current_grid_level b) (last_price b)
    (accumulated_losses b) (daily_pnl b) (total_trades b)
    (current_order_id b) (last_grid_zone b) (conn b).

Definition set_current_grid_level (v : option Q) (b : GridBot) : GridBot :=
  mkGridBot (leverage b) (base_usdt b) (grid_levels b) (sl_roe b) (tp_roe b)
    (qty_step b) (min_qty b) (current_position b) v (last_price b)
    (accumulated_losses b) (daily_pnl b) (total_trades b)
    (current_order_id b) (last_grid_zone b) (conn b).

Definition set_last_price (v : option Q) (b : GridBot) : GridBot :=
  mkGridBot (leverage b) (base_usdt b) (grid_levels b) (sl_roe b) (tp_roe b)
    (qty_step b) (min_qty b) (current_position b) (current_grid_level b) v
    (accumulated_losses b) (daily_pnl b) (total_trades b)
    (current_order_id b) (last_grid_zone b) (conn b).

Definition set_accumulated_losses (v : Q) (b : GridBot) : GridBot :=
  mkGridBot (leverage b) (base_usdt b) (grid_levels b) (sl_roe b) (tp_roe b)
    (qty_step b) (min_qty b) (current_position b) (current_grid_level b)
    (last_price b) v (daily_pnl b) (total_trades b)
    (current_order_id b) (last_grid_zone b) (conn b).

Definition set_daily_pnl (v : Q) (b : GridBot) : GridBot :=
  mkGridBot (leverage b) (base_usdt b) (grid_levels b) (sl_roe b) (tp_roe b)
    (qty_step b) (min_qty b) (current_position b) (current_grid_level b)
    (last_price b) (accumulated_losses b) v (total_trades b)
    (current_order_id b) (last_grid_zone b) (conn b).

Definition set_total_trades (v : Z) (b : GridBot) : GridBot :=
  mkGridBot (leverage b) (base_usdt b) (grid_levels b) (sl_roe b) (tp_roe b)
    (qty_step b) (min_qty b) (current_position b) (current_grid_level b)
    (last_price b) (accumulated_losses b) (daily_pnl b) v
    (current_order_id b) (last_grid_zone b) (conn b).

Definition set_current_order_id (v : option string) (b : GridBot) : GridBot :=
  mkGridBot (leverage b) (base_usdt b) (grid_levels b) (sl_roe b) (tp_roe b)
    (qty_step b) (min_qty b) (current_position b) (current_grid_level b)
    (last_price b) (accumulated_losses b) (daily_pnl b) (total_trades b)
    v (last_grid_zone b) (conn b).

Definition set_last_grid_zone (v : option nat) (b : GridBot) : GridBot :=
  mkGridBot (leverage b) (base_usdt b) (grid_levels b) (sl_roe b) (tp_roe b)
    (qty_step b) (min_qty b) (current_position b) (current_grid_level b)
    (last_price b) (accumulated_losses b) (daily_pnl b) (total_trades b)
    (current_order_id b) v (conn b).

Definition set_conn (v : option Db) (b : GridBot) : GridBot :=
  mkGridBot (leverage b) (base_usdt b) (grid_levels b) (sl_roe b) (tp_roe b)
    (qty_step b) (min_qty b) (current_position b) (current_grid_level b)
    (last_price b) (accumulated_losses b) (daily_pnl b) (total_trades b)
    (current_order_id b) (last_grid_zone b) v.

(** ** P&L calculator, [calculate_exact_pnl_with_buffer] *)

Definition FEE_RATE : Q := 55 # 100000.
Definition SAFETY_BUFFER : Q := 3 # 100.

Definition calculate_exact_pnl_with_buffer
    (entry_price exit_price size : Q) (side : string) : Q :=
  let raw_pnl :=
    if String.eqb side "Buy"%string
    then (exit_price - entry_price) * size
    else (entry_price - exit_price) * size in
  let entry_fee := (size * entry_price) * FEE_RATE in
  let exit_fee := (size * exit_price) * FEE_RATE in
  let total_fees := entry_fee + exit_fee in
  let pnl_after_fees := raw_pnl - total_fees in
  if Py.lt pnl_after_fees 0
  then
    let safety_buffer := Qabs pnl_after_fees * SAFETY_BUFFER in
    pnl_after_fees - safety_buffer
  else pnl_after_fees.

(** ** Grid zone tracker *)

(** [get_grid_zone]: the index of the first level with [price <= level],
    or the number of levels. *)
Definition get_grid_zone (b : GridBot) (price : Q) : nat :=
  match find (fun il => Py.le price (snd il)) (Py.enumerate (grid_levels b)) with
  | Some (i, _) => i
  | None => length (grid_levels b)
  end.

(** The two list comprehensions of [check_grid_crossing]. *)
Definition crossed_up (levels : list Q) (last current : Q) : list Q :=
  filter (fun level => Py.lt last level && Py.le level current) levels.

Definition crossed_down (levels : list Q) (last current : Q) : list Q :=
  filter (fun level => Py.le current level && Py.lt level last) levels.

(** [check_grid_crossing]: the returned level and the bot afterwards. *)
Definition check_grid_crossing (b : GridBot) (current_price : Q)
  : option Q * GridBot :=
  match last_price b with
  | Some lp =>
      if Py.truthy lp then
        let current_zone := get_grid_zone b current_price in
        let changed :=
          match last_grid_zone b with
          | Some z => negb (Nat.eqb current_zone z)
          | None => false
          end in
        let b' := set_last_grid_zone (Some current_zone)
                    (set_last_price (Some current_price) b) in
        if changed then
          let crossed_levels :=
            if Py.lt lp current_price
            then crossed_up (grid_levels b) lp current_price
            else crossed_down (grid_levels b) lp current_price in
          match crossed_levels with
          | level :: _ => (Some level, b')
          | [] => (None, b')
          end
        else (None, b')
      else
        (None, set_last_grid_zone (Some (get_grid_zone b current_price))
                 (set_last_price (Some current_price) b))
  | None =>
      (None, set_last_grid_zone (Some (get_grid_zone b current_price))
               (set_last_price (Some current_price) b))
  end.

(** ** Ledger store: [init_database], [load_previous_state], [save_state],
       [log_trade]

    [self.conn] is [None] when the database could not be opened; otherwise
    it is modelled by the contents of the database, every write being
    committed at once as in the source. *)

(** [INSERT INTO bot_state (id) VALUES (1)]: the column defaults. *)
Definition default_row : BotStateRow :=
  mkRow (Some 0) (Some 0) (Some 0%Z) None.

(** [init_database], on what is found on disk ([None]: the file cannot be
    opened or a statement fails, and the bot falls back to no database). *)
Definition init_database (disk : option Db) (b : GridBot) : GridBot :=
  match disk with
  | Some db =>
      match bot_state db with
      | None => set_conn (Some (mkDb (Some default_row) (trades db))) b
      | Some _ => set_conn (Some db) b
      end
  | None => set_conn None b
  end.

Definition load_previous_state (b : GridBot) : GridBot :=
  match conn b with
  | None => b
  | Some db =>
      match bot_state db with
      | Some result =>
          let b1 := set_accumulated_losses
                      (Py.or_else (col_accumulated_losses result) 0) b in
          let b2 := set_daily_pnl (Py.or_else (col_daily_pnl result) 0) b1 in
          let b3 := set_total_trades
                      (Py.or_elseZ (col_total_trades result) 0%Z) b2 in
          set_current_grid_level (col_current_grid_level result) b3
      | None => b
      end
  end.

(** [UPDATE bot_state SET ... WHERE id = 1]. *)
Definition save_state (b : GridBot) : GridBot :=
  match conn b with
  | None => b
  | Some db =>
      match bot_state db with
      | Some _ =>
          set_conn
            (Some (mkDb
                     (Some (mkRow (Some (accumulated_losses b))
                                  (Some (daily_pnl b))
                                  (Some (total_trades b))
                                  (current_grid_level b)))
                     (trades db))) b
      | None => b
      end
  end.

(** [INSERT INTO trades ...]: the log is appended to. *)
Definition log_trade (b : GridBot) (side : string) (grid_level usdt_amount pnl : Q)
  : GridBot :=
  match conn b with
  | None => b
  | Some db =>
      set_conn
        (Some (mkDb (bot_state db)
                    (trades db ++
                     [mkTrade side grid_level usdt_amount pnl
                              (accumulated_losses b)]))) b
  end.

(** ** Loss-recovery sizing *)

Definition update_pnl_tracking (b : GridBot) (trade_pnl : Q) : GridBot :=
  let b1 := set_daily_pnl (daily_pnl b + trade_pnl) b in
  let b2 := set_total_trades (total_trades b1 + 1)%Z b1 in
  let b3 :=
    if Py.lt trade_pnl 0 then
      set_accumulated_losses (accumulated_losses b2 + Qabs trade_pnl) b2
    else if Py.lt 0 (accumulated_losses b2) then
      set_accumulated_losses
        (Py.max 0 (accumulated_losses b2 - trade_pnl)) b2
    else b2 in
  save_state b3.

(** The local [recovered] of [update_pnl_tracking], printed when positive. *)
Definition recovered (b : GridBot) (trade_pnl : Q) : Q :=
  Py.min (accumulated_losses b) trade_pnl.

Definition calculate_position_size_with_recovery (b : GridBot) : Q :=
  base_usdt b + accumulated_losses b.

(** ** Exceptions *)

Inductive raised (A : Type) : Type :=
| Return (a : A)
| Raise.
Arguments Return {A} a.
Arguments Raise {A}.

Definition bind {A B : Type} (m : raised A) (k : A -> raised B) : raised B :=
  match m with
  | Return a => k a
  | Raise => Raise
  end.

Notation "x <- m ;; k" := (bind m (fun x => k))
  (at level 61, m at next level, right associativity).

(** [x / y]: [ZeroDivisionError] when [y] is zero. *)
Definition py_div (x y : Q) : raised Q :=
  if Qeq_bool y 0 then Raise else Return (x / y).

(** Integer part, towards zero. *)
Definition Qtrunc (q : Q) : Z := Z.quot (Qnum q) (Zpos (Qden q)).

(** [round_down]: [(d_value // d_step) * d_step] on decimals; the final
    [quantize] leaves a multiple of the step as it is.  A zero step makes
    [//] raise.

    Limits of the model.  The source computes in decimals of 18 digits
    ([getcontext().prec = 18]) and converts the result back to a float:
    beyond 18 digits [//] or [quantize] raise [InvalidOperation], and
    beyond what a float carries exactly the returned value is rounded.
    Here the quotient is exact at every magnitude, so the model agrees
    with the source only while the result, written with the decimals of
    the step, stays within that precision. *)
Definition round_down (value step : Q) : raised Q :=
  if Qeq_bool step 0 then Raise
  else Return (inject_Z (Qtrunc (value / step)) * step).

(** The stop-loss and take-profit prices, written out in both
    [open_grid_position] and [reverse_position]; returns [(sl, tp)]. *)
Definition sl_tp_prices (side : string) (price sl_roe tp_roe leverage : Q)
  : raised (Q * Q) :=
  s <- py_div (sl_roe / 100) leverage ;;
  t <- py_div (tp_roe / 100) leverage ;;
  if String.eqb side "Buy"%string
  then Return (price * (1 - s), price * (1 + t))
  else Return (price * (1 + s), price * (1 - t)).

(** ** Execution gateway

    The exchange is external.  It is modelled by the answers it gives to the
    successive calls of each kind, and by the list of orders it was sent.
    An exhausted script answers as an unreachable exchange does: no price,
    no position, and an error for an order. *)

Inductive OrderResult : Type :=
| OrderOk (order_id : option string)
| OrderError (msg : string).

(** What [place_order] sends: side, quantity, and the take-profit and
    stop-loss prices before they are formatted with [round(_, 2)]. *)
Record Order := mkOrder {
  order_side : string;
  order_qty : Q;
  order_take_profit : Q;
  order_stop_loss : Q
}.

Record Gateway := mkGateway {
  price_answers : list (option Q);
  position_answers : list (option Position);
  order_answers : list OrderResult;
  orders : list Order
}.

(** [get_price]: the last price, or [None] when the query fails. *)
Definition get_price (g : Gateway) : option Q * Gateway :=
  match price_answers g with
  | a :: rest =>
      (a, mkGateway rest (position_answers g) (order_answers g) (orders g))
  | [] => (None, g)
  end.

(** [get_position_info]: the active position, or [None] when there is none
    or the query fails. *)
Definition get_position_info (g : Gateway) : option Position * Gateway :=
  match position_answers g with
  | a :: rest =>
      (a, mkGateway (price_answers g) rest (order_answers g) (orders g))
  | [] => (None, g)
  end.

(** The answer the next order will get. *)
Definition next_order_answer (g : Gateway) : OrderResult :=
  match order_answers g with
  | a :: _ => a
  | [] => OrderError "no answer"
  end.

(** [self.client.place_order(...)] inside [try]: an exception becomes
    [{"error": ...}]. *)
Definition client_place_order (g : Gateway) (o : Order) : OrderResult * Gateway :=
  (next_order_answer g,
   mkGateway (price_answers g) (position_answers g)
             (tl (order_answers g)) (orders g ++ [o])).

Definition place_order (g : Gateway) (side : string) (qty stop_loss take_profit : Q)
  : OrderResult * Gateway :=
  client_place_order g (mkOrder side qty take_profit stop_loss).

(** ["error" not in result]. *)
Definition is_error (r : OrderResult) : bool :=
  match r with
  | OrderOk _ => false
  | OrderError _ => true
  end.

Definition opposite (side : string) : string :=
  if String.eqb side "Buy"%string then "Sell"%string else "Buy"%string.

(** [reverse_position]: the 2x order. *)
Definition reverse_position (g : Gateway) (current_qty : Q) (current_side : string)
    (sl_roe tp_roe leverage : Q) : raised OrderResult * Gateway :=
  let reverse_side := opposite current_side in
  let reverse_qty := current_qty * 2 in
  let '(current_price, g1) := get_price g in
  if Py.truthy_opt current_price then
    let price := Py.or_else current_price 0 in
    match sl_tp_prices reverse_side price sl_roe tp_roe leverage with
    | Return (sl_price, tp_price) =>
        let '(r, g2) :=
          client_place_order g1
            (mkOrder reverse_side reverse_qty tp_price sl_price) in
        (Return r, g2)
    | Raise => (Raise, g1)
    end
  else (Return (OrderError "Failed to get current price"), g1).

(** [calculate_position_size]: [None] when no price is available.

    Limits of the model.  [raw_qty] is an exact quotient here and a float
    quotient in the source; when the exact quotient is a whole number of
    steps and the float one falls just below it, the source returns one
    step less than the model. *)
Definition calculate_position_size (b : GridBot) (g : Gateway) (usdt_amount : Q)
  : raised (option Q) * Gateway :=
  let '(price, g1) := get_price g in
  if Py.truthy_opt price then
    let p := Py.or_else price 0 in
    let raw_qty := (usdt_amount * leverage b) / p in
    (qty <- round_down raw_qty (qty_step b) ;;
     Return (Some (if Py.lt qty (min_qty b) then min_qty b else qty)),
     g1)
  else (Return None, g1).

(** ** Transitions of the position state machine

    Each returns whether an exception escaped, and the bot and the gateway
    as the call leaves them. *)

Definition open_grid_position (b : GridBot) (g : Gateway) (price grid_level : Q)
  : raised unit * GridBot * Gateway :=
  let side := if Py.lt grid_level price then "Buy"%string else "Sell"%string in
  let usdt_amount := calculate_position_size_with_recovery b in
  match calculate_position_size b g usdt_amount with
  | (Raise, g1) => (Raise, b, g1)
  | (Return qty_opt, g1) =>
      if Py.truthy_opt qty_opt then
        let qty := Py.or_else qty_opt 0 in
        match sl_tp_prices side price (sl_roe b) (tp_roe b) (leverage b) with
        | Raise => (Raise, b, g1)
        | Return (sl_price, tp_price) =>
            let '(result, g2) := place_order g1 side qty sl_price tp_price in
            match result with
            | OrderOk order_id =>
                let b1 := set_current_order_id order_id b in
                let b2 := set_current_position
                            (Some (mkPosition side qty price)) b1 in
                let b3 := set_current_grid_level (Some grid_level) b2 in
                (Return tt, log_trade b3 side grid_level usdt_amount 0, g2)
            | OrderError _ => (Return tt, b, g2)
            end
        end
      else (Return tt, b, g1)
  end.

Definition execute_reversal (b : GridBot) (g : Gateway)
    (current_pos : Position) (grid_level : Q)
  : raised unit * GridBot * Gateway :=
  let '(current_price, g1) := get_price g in
  if Py.truthy_opt current_price then
    let price := Py.or_else current_price 0 in
    let calculated_pnl :=
      calculate_exact_pnl_with_buffer
        (entry_price current_pos) price (size current_pos) (side current_pos) in
    let b1 := update_pnl_tracking b calculated_pnl in
    let usdt_amount := calculate_position_size_with_recovery b1 in
    let actual_position_size := size current_pos in
    match reverse_position g1 actual_position_size (side current_pos)
            (sl_roe b1) (tp_roe b1) (leverage b1) with
    | (Raise, g2) => (Raise, b1, g2)
    | (Return (OrderOk order_id), g2) =>
        let b2 := set_current_order_id order_id b1 in
        let new_side := opposite (side current_pos) in
        let b3 := set_current_position
                    (Some (mkPosition new_side (actual_position_size * 2) price))
                    b2 in
        (Return tt, log_trade b3 new_side grid_level usdt_amount calculated_pnl, g2)
    | (Return (OrderError _), g2) => (Return tt, b1, g2)
    end
  else (Return tt, b, g1).

Definition should_reverse_position (b : GridBot) (price grid_level : Q)
    (position : Position) : bool :=
  match current_grid_level b with
  | Some g => Qeq_bool grid_level g
  | None => false
  end.

(** [execute_grid_trade]: the [try] swallows whatever is raised. *)
Definition execute_grid_trade (b : GridBot) (g : Gateway) (price grid_level : Q)
  : GridBot * Gateway :=
  let '(current_pos, g1) := get_position_info g in
  match current_pos with
  | Some pos =>
      if should_reverse_position b price grid_level pos then
        let '(_, b', g') := execute_reversal b g1 pos grid_level in (b', g')
      else (b, g1)
  | None =>
      let '(_, b', g') := open_grid_position b g1 price grid_level in (b', g')
  end.

(** A ticker message: without a [data] dictionary, or with one, whose
    [lastPrice] may be missing. *)
Inductive TickerMsg : Type :=
| NoData
| Data (lastPrice : option Q).

(** [handle_ticker]: [float(None)] raises on a missing [lastPrice]. *)
Definition handle_ticker (b : GridBot) (g : Gateway) (msg : TickerMsg)
  : raised unit * GridBot * Gateway :=
  match msg with
  | NoData => (Return tt, b, g)
  | Data None => (Raise, b, g)
  | Data (Some price) =>
      if Py.truthy price then
        let '(crossed_level, b1) := check_grid_crossing b price in
        if Py.truthy_opt crossed_level then
          let '(b2, g2) :=
            execute_grid_trade b1 g price (Py.or_else crossed_level 0) in
          (Return tt, b2, g2)
        else (Return tt, b1, g)
      else (Return tt, b, g)
  end.

Definition detect_position_closure (b : GridBot) (g : Gateway) : bool * Gateway :=
  match current_position b with
  | None => (false, g)
  | Some _ =>
      let '(api_position, g1) := get_position_info g in
      match api_position with
      | None => (true, g1)
      | Some _ => (false, g1)
      end
  end.

Definition monitor_position_status (b : GridBot) (g : Gateway) : GridBot * Gateway :=
  match current_position b with
  | None => (b, g)
  | Some pos =>
      let '(closed, g1) := detect_position_closure b g in
      if closed then
        let '(current_price, g2) := get_price g1 in
        if Py.truthy_opt current_price then
          let price := Py.or_else current_price 0 in
          let calculated_pnl :=
            calculate_exact_pnl_with_buffer
              (entry_price pos) price (size pos) (side pos) in
          let b1 := update_pnl_tracking b calculated_pnl in
          let b2 := log_trade b1 (side pos ++ "-CLOSED")%string
                      (Py.or_else (current_grid_level b1) 0) 0 calculated_pnl in
          let b3 := set_current_position None b2 in
          let b4 := set_current_grid_level None b3 in
          (set_current_order_id None b4, g2)
        else (b, g2)
      else (b, g1)
  end.

(** ** Construction, start-up and the event loop *)

(** [config.json] and the lot-size filter of the instrument. *)
Record Config := mkConfig {
  LEVERAGE : Q;
  USDT : Q;
  GRID_LEVELS : list Q;
  SL_ROE : Q;
  TP_ROE : Q;
  qtyStep : Q;
  minOrderQty : Q
}.

(** [sorted(...)]: ascending and stable. *)
Fixpoint insert_sorted (x : Q) (l : list Q) : list Q :=
  match l with
  | [] => [x]
  | y :: rest => if Py.le x y then x :: l else y :: insert_sorted x rest
  end.

Definition sorted (l : list Q) : list Q := fold_right insert_sorted [] l.

(** [GridBot.__init__], for credentials and instrument metadata that are
    available. *)
Definition GridBot_init (config : Config) (disk : option Db) : GridBot :=
  let b :=
    mkGridBot (LEVERAGE config) (USDT config) (sorted (GRID_LEVELS config))
      (SL_ROE config) (TP_ROE config) (qtyStep config) (minOrderQty config)
      None None None 0 0 0%Z None None None in
  load_previous_state (init_database disk b).

(** [start], up to the loop: an existing exchange position is adopted. *)
Definition start (b : GridBot) (g : Gateway) : GridBot * Gateway :=
  let '(existing_pos, g1) := get_position_info g in
  match existing_pos with
  | Some pos => (set_current_position (Some pos) b, g1)
  | None => (b, g1)
  end.

(** [stop]: the final [save_state]. *)
Definition stop (b : GridBot) : GridBot := save_state b.

(** What the running bot reacts to: a ticker message delivered to
    [handle_ticker], or the periodic [monitor_position_status].

    Limits of the model.  [step] and [run] take the events one at a time:
    each handler runs to completion before the next one starts.  In the
    source [handle_ticker] runs on the WebSocket callback thread and
    [monitor_position_status] in the loop of [start], with no lock between
    them; executions in which the two overlap are not described by
    [run]. *)
Inductive Event : Type :=
| Tick (msg : TickerMsg)
| Poll.

Definition step (s : GridBot * Gateway) (e : Event) : GridBot * Gateway :=
  let '(b, g) := s in
  match e with
  | Tick msg => let '(_, b', g') := handle_ticker b g msg in (b', g')
  | Poll => monitor_position_status b g
  end.

Definition run (s : GridBot * Gateway) (events : list Event) : GridBot * Gateway :=
  fold_left step events s.

(** A new process on the database the previous one left behind. *)
Definition restart (config : Config) (b : GridBot) : GridBot :=
  GridBot_init config (conn b).

(** The data-model invariant relating the grid level and the position. *)
Definition level_iff_position (b : GridBot) : Prop :=
  current_grid_level b <> None <-> current_position b <> None.

(** ** The P&L contract as the specification words it *)

Inductive Side : Type := Long | Short.

Definition side_name (s : Side) : string :=
  match s with
  | Long => "Buy"%string
  | Short => "Sell"%string
  end.

Definition realize_spec (entry exit sz : Q) (s : Side) : Q :=
  let raw :=
    match s with
    | Long => (exit - entry) * sz
    | Short => (entry - exit) * sz
    end in
  let entry_fee := sz * entry * (55 # 100000) in
  let exit_fee := sz * exit * (55 # 100000) in
  let pnl_after_fees := raw - entry_fee - exit_fee in
  if Qlt_le_dec pnl_after_fees 0
  then pnl_after_fees - (3 # 100) * Qabs pnl_after_fees
  else pnl_after_fees.

(** ** Auxiliary definitions used in the statements *)

(** The zone as a recursion on the levels. *)
Fixpoint first_ge (levels : list Q) (price : Q) : nat :=
  match levels with
  | [] => 0%nat
  | level :: rest =>
      if Py.le price level then 0%nat else S (first_ge rest price)
  end.

(** A level lies between two prices in the sense of [check_grid_crossing]:
    open at the previous price, closed at the current one. *)
Definition lies_between (previous current level : Q) : Prop :=
  (previous < level /\ level <= current) \/
  (current <= level /\ level < previous).

(** An empty database file. *)
Definition empty_db : Db := mkDb None [].

(** A configuration with the given levels: leverage 10, base stake 10 USDT,
    stop-loss 50% and take-profit 100% ROE, lot step and minimum 0.1. *)
Definition config_with_levels (levels : list Q) : Config :=
  mkConfig 10 10 levels 50 100 (1 # 10) (1 # 10).

(** A bot constructed on an empty database. *)
Definition fresh_bot (levels : list Q) : GridBot :=
  GridBot_init (config_with_levels levels) (Some empty_db).

(** The database is open and holds the state row. *)
Definition ledger_available (b : GridBot) : Prop :=
  match conn b with
  | Some db => bot_state db <> None
  | None => False
  end.

(** The trade log as the bot sees it. *)
Definition trade_log (b : GridBot) : list Trade :=
  match conn b with
  | Some db => trades db
  | None => []
  end.

(** ** Scenarios *)

(** A run on the single level 10: the bot starts flat on an empty database,
    sees 9 and then 11, opens a long at level 10, and then finds at a poll
    that the exchange closed the position (price 12).  The process is then
    replaced by a new one on the same database, which starts with the
    exchange still flat. *)
Definition closure_run : GridBot * Gateway :=
  let g0 := mkGateway [Some 11; Some 12] [] [OrderOk (Some "order-1"%string)] [] in
  run (start (fresh_bot [10]) g0)
      [Tick (Data (Some 9)); Tick (Data (Some 11)); Poll].

Definition closure_then_restart : GridBot :=
  let '(b, g) := closure_run in
  fst (start (restart (config_with_levels [10]) b) g).

(** A run on the single level 100: the bot sees 99 and 101 and opens a long
    of 0.9 at 101; the price then falls back to 99 through the entry level
    while the exchange reports that long, and the bot reverses. *)
Definition reversal_gateway : Gateway :=
  mkGateway [Some 101; Some 99; Some 99]
            [None; None; Some (mkPosition "Buy" (9 # 10) 101)]
            [OrderOk (Some "order-1"%string); OrderOk (Some "order-2"%string)]
            [].

Definition reversal_run : GridBot * Gateway :=
  run (start (fresh_bot [100]) reversal_gateway)
      [Tick (Data (Some 99)); Tick (Data (Some 101)); Tick (Data (Some 99))].

(** The quantity that a stake buys at a given price, by
    [calculate_position_size]. *)
Definition quantity_for_stake (b : GridBot) (usdt_amount price : Q) : raised (option Q) :=
  fst (calculate_position_size b (mkGateway [Some price] [] [] []) usdt_amount).

(** ** Further notions used in the statements *)

(** The tracker holds either nothing, or a price together with the zone of
    that price. *)
Definition tracker_consistent (b : GridBot) : Prop :=
  match last_price b with
  | Some p => last_grid_zone b = Some (get_grid_zone b p)
  | None => last_grid_zone b = None
  end.

(** No recorded price is zero. *)
Definition recorded_price_nonzero (b : GridBot) : Prop :=
  forall p, last_price b = Some p -> ~ p == 0.

(** The configuration attributes, which only the constructor sets. *)
Definition config_of (b : GridBot)
  : Q * Q * list Q * Q * Q * Q * Q :=
  (leverage b, base_usdt b, grid_levels b, sl_roe b, tp_roe b,
   qty_step b, min_qty b).

(** The tracker attributes. *)
Definition tracker_of (b : GridBot) : option Q * option nat :=
  (last_price b, last_grid_zone b).

(** The in-memory P&L state. *)
Definition pnl_state (b : GridBot) : Q * Q * Z :=
  (accumulated_losses b, daily_pnl b, total_trades b).


(** A list is another one with at most one element appended. *)
Definition grows_by_at_most_one {A : Type} (l l' : list A) : Prop :=
  l' = l \/ exists x, l' = l ++ [x].

(** The ticker messages among the events. *)
Definition is_tick (e : Event) : bool :=
  match e with
  | Tick _ => true
  | Poll => false
  end.

(** Two bots agree on whether the database is open and on whether it holds
    the state row. *)
Definition same_ledger_status (b b' : GridBot) : Prop :=
  (conn b' = None <-> conn b = None) /\
  (ledger_available b' <-> ledger_available b).

(** During a transition from gateway [g] to [g'] the order [o] was sent
    and the exchange accepted it. *)
Definition order_accepted (g g' : Gateway) (o : Order) : Prop :=
  orders g' = orders g ++ [o] /\
  exists order_id, order_answers g = OrderOk order_id :: order_answers g'.

(** * Properties *)

(** ** Comparisons *)

Lemma lt_true_iff (x y : Q) : Py.lt x y = true <-> x < y.
Proof.
  unfold Py.lt. rewrite negb_true_iff.
  split; intros H.
  - apply Qnot_le_lt. intros Hle. apply Qle_bool_iff in Hle. congruence.
  - destruct (Qle_bool y x) eqn:E; [ | reflexivity ].
    apply Qle_bool_iff in E. exfalso. exact (Qlt_not_le _ _ H E).
Qed.

Lemma lt_false_iff (x y : Q) : Py.lt x y = false <-> y <= x.
Proof.
  unfold Py.lt. rewrite negb_false_iff. apply Qle_bool_iff.
Qed.

Lemma le_true_iff (x y : Q) : Py.le x y = true <-> x <= y.
Proof. apply Qle_bool_iff. Qed.

Lemma le_false_iff (x y : Q) : Py.le x y = false <-> y < x.
Proof.
  unfold Py.le. split; intros H.
  - apply Qnot_le_lt. intros Hle. apply Qle_bool_iff in Hle. congruence.
  - destruct (Qle_bool x y) eqn:E; [ | reflexivity ].
    apply Qle_bool_iff in E. exfalso. exact (Qlt_not_le _ _ H E).
Qed.

Lemma truthy_true_iff (x : Q) : Py.truthy x = true <-> ~ x == 0.
Proof.
  unfold Py.truthy. rewrite negb_true_iff. split; intros H.
  - apply Qeq_bool_neq. exact H.
  - destruct (Qeq_bool x 0) eqn:E; [ | reflexivity ].
    apply Qeq_bool_iff in E. contradiction.
Qed.

(** ** Zones *)

Lemma find_enumerate_from (price : Q) (levels : list Q) (k n : nat) :
  n = (k + length levels)%nat ->
  match find (fun il : nat * Q => Py.le price (snd il))
             (combine (seq k (length levels)) levels) with
  | Some (i, _) => i
  | None => n
  end = (k + first_ge levels price)%nat.
Proof.
  revert k. induction levels as [ | level rest IH ]; intros k Hn; simpl in *.
  - lia.
  - destruct (Py.le price level).
    + lia.
    + rewrite IH; lia.
Qed.

Lemma get_grid_zone_first_ge (b : GridBot) (price : Q) :
  get_grid_zone b price = first_ge (grid_levels b) price.
Proof.
  unfold get_grid_zone, Py.enumerate.
  exact (find_enumerate_from price (grid_levels b) 0 _ eq_refl).
Qed.

Lemma first_ge_le_length (levels : list Q) (price : Q) :
  (first_ge levels price <= length levels)%nat.
Proof.
  induction levels as [ | level rest IH ]; simpl; [ lia | ].
  destruct (Py.le price level); lia.
Qed.

Lemma first_ge_below (levels : list Q) (price : Q) (j : nat) :
  (j < first_ge levels price)%nat -> nth j levels 0 < price.
Proof.
  revert j. induction levels as [ | level rest IH ]; simpl; intros j Hj.
  - lia.
  - destruct (Py.le price level) eqn:E; [ lia | ].
    apply le_false_iff in E.
    destruct j as [ | j ]; [ exact E | ].
    apply IH. lia.
Qed.

Lemma first_ge_at (levels : list Q) (price : Q) :
  (first_ge levels price < length levels)%nat ->
  price <= nth (first_ge levels price) levels 0.
Proof.
  induction levels as [ | level rest IH ]; simpl; intros H.
  - lia.
  - destruct (Py.le price level) eqn:E.
    + apply le_true_iff. exact E.
    + apply IH. lia.
Qed.

Lemma first_ge_all_below (levels : list Q) (price : Q) :
  first_ge levels price = length levels ->
  forall level, In level levels -> level < price.
Proof.
  intros Hz level Hin.
  destruct (In_nth _ _ 0 Hin) as [j [Hj Hnth]].
  rewrite <- Hnth. apply first_ge_below. lia.
Qed.

(** C2. [get_grid_zone] returns the index of the first grid level that is
    at least the price (every earlier level is strictly below the price)
    and the number of levels when the price is above all of them; for the
    levels 10, 20, 30 the prices 5, 10, 15, 25, 35 fall in zones
    0, 0, 1, 2, 3. *)
Theorem get_grid_zone_first_level_at_or_above :
  (forall (b : GridBot) (price : Q),
     let z := get_grid_zone b price in
     (z <= length (grid_levels b))%nat /\
     (forall j, (j < z)%nat -> nth j (grid_levels b) 0 < price) /\
     ((z < length (grid_levels b))%nat -> price <= nth z (grid_levels b) 0) /\
     (z = length (grid_levels b) ->
      forall level, In level (grid_levels b) -> level < price)) /\
  get_grid_zone (fresh_bot [10; 20; 30]) 5 = 0%nat /\
  get_grid_zone (fresh_bot [10; 20; 30]) 10 = 0%nat /\
  get_grid_zone (fresh_bot [10; 20; 30]) 15 = 1%nat /\
  get_grid_zone (fresh_bot [10; 20; 30]) 25 = 2%nat /\
  get_grid_zone (fresh_bot [10; 20; 30]) 35 = 3%nat.
Proof.
  split.
  - intros b price z. subst z. rewrite get_grid_zone_first_ge.
    repeat split.
    + apply first_ge_le_length.
    + apply first_ge_below.
    + apply first_ge_at.
    + apply first_ge_all_below.
  - repeat split; reflexivity.
Qed.

(** C5. On a freshly constructed bot with the single level 10, observing 9
    returns nothing and records the price and its zone; observing 11 next
    reports level 10.  Observing 11 and then 9 reports level 10 as well. *)
Theorem check_grid_crossing_single_level :
  let b := fresh_bot [10] in
  last_price b = None /\ last_grid_zone b = None /\
  fst (check_grid_crossing b 9) = None /\
  last_price (snd (check_grid_crossing b 9)) = Some 9 /\
  last_grid_zone (snd (check_grid_crossing b 9)) = Some 0%nat /\
  fst (check_grid_crossing (snd (check_grid_crossing b 9)) 11) = Some 10 /\
  fst (check_grid_crossing b 11) = None /\
  last_price (snd (check_grid_crossing b 11)) = Some 11 /\
  last_grid_zone (snd (check_grid_crossing b 11)) = Some 1%nat /\
  fst (check_grid_crossing (snd (check_grid_crossing b 11)) 9) = Some 10.
Proof.
  repeat split; reflexivity.
Qed.

(** C10. A zone change without a reported crossing: with levels 10 and 20
    and a previous price of exactly 10, the price 15 moves the zone from 0
    to 1, [check_grid_crossing] returns [None] because no level satisfies
    [10 < level <= 15], and the last price and zone are updated all the
    same. *)
Theorem zone_change_without_crossing :
  let b0 := fresh_bot [10; 20] in
  let b1 := snd (check_grid_crossing b0 10) in
  let r := check_grid_crossing b1 15 in
  last_price b1 = Some 10 /\
  last_grid_zone b1 = Some 0%nat /\
  get_grid_zone b1 15 = 1%nat /\
  crossed_up (grid_levels b1) 10 15 = [] /\
  fst r = None /\
  last_price (snd r) = Some 15 /\
  last_grid_zone (snd r) = Some 1%nat.
Proof.
  repeat split; reflexivity.
Qed.

(** ** Crossings on sorted levels *)

Lemma check_grid_crossing_tracks (b : GridBot) (p : Q) :
  let b' := snd (check_grid_crossing b p) in
  last_price b' = Some p /\
  last_grid_zone b' = Some (get_grid_zone b p) /\
  grid_levels b' = grid_levels b /\
  current_position b' = current_position b /\
  current_grid_level b' = current_grid_level b /\
  accumulated_losses b' = accumulated_losses b /\
  daily_pnl b' = daily_pnl b /\
  total_trades b' = total_trades b /\
  conn b' = conn b.
Proof.
  unfold check_grid_crossing.
  destruct (last_price b) as [ lp | ]; [ destruct (Py.truthy lp) | ];
    repeat match goal with
           | |- context [ match ?x with _ => _ end ] => destruct x
           end;
    simpl; repeat split; reflexivity.
Qed.

(** The result of an observation once a previous price is on record. *)
Lemma check_grid_crossing_result (b : GridBot) (prev cur : Q) :
  last_price b = Some prev ->
  last_grid_zone b = Some (first_ge (grid_levels b) prev) ->
  Py.truthy prev = true ->
  fst (check_grid_crossing b cur) =
    if Nat.eqb (first_ge (grid_levels b) cur) (first_ge (grid_levels b) prev)
    then None
    else hd_error (if Py.lt prev cur
                   then crossed_up (grid_levels b) prev cur
                   else crossed_down (grid_levels b) prev cur).
Proof.
  intros Hp Hz Ht. unfold check_grid_crossing.
  rewrite Hp, Ht, Hz, get_grid_zone_first_ge.
  destruct (Nat.eqb _ _); simpl; [ reflexivity | ].
  destruct (Py.lt prev cur).
  - destruct (crossed_up _ _ _); reflexivity.
  - destruct (crossed_down _ _ _); reflexivity.
Qed.

Lemma first_ge_count (levels : list Q) (price : Q) :
  StronglySorted Qle levels ->
  first_ge levels price =
    length (filter (fun level => Py.lt level price) levels).
Proof.
  induction 1 as [ | level rest Hs IH Hall ]; simpl; [ reflexivity | ].
  destruct (Py.le price level) eqn:E.
  - apply le_true_iff in E.
    assert (Hlt : Py.lt level price = false) by (apply lt_false_iff; exact E).
    rewrite Hlt.
    assert (Hnone : forall x, In x rest -> Py.lt x price = false).
    { intros x Hx. apply lt_false_iff.
      rewrite Forall_forall in Hall. specialize (Hall x Hx).
      apply Qle_trans with level; assumption. }
    clear - Hnone. induction rest as [ | y r IHr ]; simpl; [ reflexivity | ].
    rewrite (Hnone y (or_introl eq_refl)).
    apply IHr. intros x Hx. apply Hnone. right. exact Hx.
  - apply le_false_iff in E.
    assert (Hlt : Py.lt level price = true) by (apply lt_true_iff; exact E).
    rewrite Hlt. simpl. rewrite IH. reflexivity.
Qed.

Lemma filter_length_le {A : Type} (f g : A -> bool) (l : list A) :
  (forall x, In x l -> f x = true -> g x = true) ->
  (length (filter f l) <= length (filter g l))%nat.
Proof.
  induction l as [ | a l IH ]; simpl; intros H; [ lia | ].
  assert (IH' : (length (filter f l) <= length (filter g l))%nat).
  { apply IH. intros x Hx. apply H. right. exact Hx. }
  destruct (f a) eqn:Ef.
  - rewrite (H a (or_introl eq_refl) Ef). simpl. lia.
  - destruct (g a); simpl; lia.
Qed.

Lemma filter_length_lt {A : Type} (f g : A -> bool) (l : list A) (a : A) :
  (forall x, In x l -> f x = true -> g x = true) ->
  In a l -> f a = false -> g a = true ->
  (length (filter f l) < length (filter g l))%nat.
Proof.
  induction l as [ | y l IH ]; simpl; intros H Hin Hf Hg; [ contradiction | ].
  assert (Hle : (length (filter f l) <= length (filter g l))%nat).
  { apply filter_length_le. intros x Hx. apply H. right. exact Hx. }
  destruct Hin as [ -> | Hin ].
  - rewrite Hf, Hg. simpl. lia.
  - assert (IH' : (length (filter f l) < length (filter g l))%nat).
    { apply IH; try assumption. intros x Hx. apply H. right. exact Hx. }
    destruct (f y) eqn:Ef.
    + rewrite (H y (or_introl eq_refl) Ef). simpl. lia.
    + destruct (g y); simpl; lia.
Qed.

(** Zones are monotone, and a level in [[lo, hi)] separates them. *)
Lemma first_ge_separated (levels : list Q) (lo hi level : Q) :
  StronglySorted Qle levels ->
  In level levels -> lo <= level -> level < hi ->
  (first_ge levels lo < first_ge levels hi)%nat.
Proof.
  intros Hs Hin Hlo Hhi.
  rewrite !first_ge_count by assumption.
  apply filter_length_lt with level.
  - intros x _ Hx. apply lt_true_iff in Hx. apply lt_true_iff.
    apply Qlt_le_trans with lo; [ exact Hx | ].
    apply Qle_trans with level; [ exact Hlo | apply Qlt_le_weak; exact Hhi ].
  - exact Hin.
  - apply lt_false_iff. exact Hlo.
  - apply lt_true_iff. exact Hhi.
Qed.

Lemma filter_head_least (f : Q -> bool) (levels : list Q) (m : Q) (rest : list Q) :
  StronglySorted Qle levels ->
  filter f levels = m :: rest ->
  In m levels /\ f m = true /\
  forall x, In x levels -> f x = true -> m <= x.
Proof.
  induction 1 as [ | level tail Hs IH Hall ]; simpl; intros Hf; [ discriminate | ].
  destruct (f level) eqn:E.
  - injection Hf as Hm _. subst m. split; [ left; reflexivity | ].
    split; [ exact E | ].
    intros x [ <- | Hx ] _; [ apply Qle_refl | ].
    rewrite Forall_forall in Hall. apply Hall. exact Hx.
  - destruct (IH Hf) as [Hin [Hfm Hmin]].
    split; [ right; exact Hin | ].
    split; [ exact Hfm | ].
    intros x [ <- | Hx ] Hfx; [ congruence | ].
    apply Hmin; assumption.
Qed.

Lemma filter_nonempty {A : Type} (f : A -> bool) (l : list A) (a : A) :
  In a l -> f a = true -> exists m rest, filter f l = m :: rest.
Proof.
  intros Hin Hf.
  destruct (filter f l) as [ | m rest ] eqn:E.
  - assert (Hx : In a (filter f l)) by (apply filter_In; split; assumption).
    rewrite E in Hx. contradiction.
  - exists m, rest. reflexivity.
Qed.

Lemma crossed_up_spec (prev cur level : Q) :
  Py.lt prev level && Py.le level cur = true <-> prev < level /\ level <= cur.
Proof.
  rewrite andb_true_iff, lt_true_iff, le_true_iff. reflexivity.
Qed.

Lemma crossed_down_spec (prev cur level : Q) :
  Py.le cur level && Py.lt level prev = true <-> cur <= level /\ level < prev.
Proof.
  rewrite andb_true_iff, lt_true_iff, le_true_iff. reflexivity.
Qed.

(** C6. When two grid levels of different value lie between the previous
    and the current price, the observation returns a crossed level that is
    at most every crossed level, whichever way the price moved.  The levels
    are sorted ascending, as the constructor leaves them, and the previous
    price is one that the tracker treats as recorded (non-zero). *)
Theorem check_grid_crossing_lowest_crossed
    (b0 : GridBot) (prev cur l1 l2 : Q) :
  Sorted Qle (grid_levels b0) ->
  ~ prev == 0 ->
  In l1 (grid_levels b0) -> In l2 (grid_levels b0) -> l1 < l2 ->
  lies_between prev cur l1 -> lies_between prev cur l2 ->
  let b1 := snd (check_grid_crossing b0 prev) in
  exists m,
    fst (check_grid_crossing b1 cur) = Some m /\
    In m (grid_levels b0) /\
    lies_between prev cur m /\
    forall level, In level (grid_levels b0) ->
                  lies_between prev cur level -> m <= level.
Proof.
  intros Hsorted Hprev Hin1 Hin2 Hlt Hb1 Hb2 b1.
  assert (Hs : StronglySorted Qle (grid_levels b0)).
  { apply Sorted_StronglySorted; [ | exact Hsorted ].
    intros x y z. apply Qle_trans. }
  destruct (check_grid_crossing_tracks b0 prev)
    as (Hlp & Hlz & Hlv & _).
  fold b1 in Hlp, Hlz, Hlv.
  rewrite get_grid_zone_first_ge, <- Hlv in Hlz.
  rewrite (check_grid_crossing_result b1 prev cur Hlp Hlz
             (proj2 (truthy_true_iff prev) Hprev)).
  rewrite Hlv.
  destruct Hb1 as [[Ha1 Hc1] | [Hc1 Ha1]];
    destruct Hb2 as [[Ha2 Hc2] | [Hc2 Ha2]].
  - (* upwards *)
    assert (Hz : (first_ge (grid_levels b0) prev
                  < first_ge (grid_levels b0) cur)%nat).
    { apply first_ge_separated with l1; try assumption.
      - apply Qlt_le_weak. exact Ha1.
      - apply Qlt_le_trans with l2; assumption. }
    destruct (Nat.eqb_spec (first_ge (grid_levels b0) cur)
                           (first_ge (grid_levels b0) prev)) as [ E | _ ];
      [ lia | ].
    assert (Hup : Py.lt prev cur = true).
    { apply lt_true_iff. apply Qlt_le_trans with l1; assumption. }
    rewrite Hup. unfold crossed_up.
    destruct (filter_nonempty
                (fun level => Py.lt prev level && Py.le level cur)
                (grid_levels b0) l1 Hin1
                (proj2 (crossed_up_spec prev cur l1) (conj Ha1 Hc1)))
      as (m & rest & Hf).
    rewrite Hf. simpl. exists m.
    destruct (filter_head_least _ _ _ _ Hs Hf) as (Hm & Hfm & Hmin).
    apply crossed_up_spec in Hfm.
    repeat split; try assumption.
    + left. exact Hfm.
    + intros level Hl [ Hup' | [Hd1 Hd2] ].
      * apply Hmin; [ exact Hl | apply crossed_up_spec; exact Hup' ].
      * exfalso. apply lt_true_iff in Hup.
        apply (Qlt_irrefl prev).
        apply Qlt_le_trans with cur; [ exact Hup | ].
        apply Qle_trans with level; [ exact Hd1 | apply Qlt_le_weak; exact Hd2 ].
  - exfalso. apply (Qlt_irrefl prev).
    apply Qlt_le_trans with l1; [ exact Ha1 | ].
    apply Qle_trans with cur; [ exact Hc1 | ].
    apply Qle_trans with l2; [ exact Hc2 | apply Qlt_le_weak; exact Ha2 ].
  - exfalso. apply (Qlt_irrefl prev).
    apply Qlt_le_trans with l2; [ exact Ha2 | ].
    apply Qle_trans with cur; [ exact Hc2 | ].
    apply Qle_trans with l1; [ exact Hc1 | apply Qlt_le_weak; exact Ha1 ].
  - (* downwards *)
    assert (Hz : (first_ge (grid_levels b0) cur
                  < first_ge (grid_levels b0) prev)%nat).
    { apply first_ge_separated with l1; assumption. }
    destruct (Nat.eqb_spec (first_ge (grid_levels b0) cur)
                           (first_ge (grid_levels b0) prev)) as [ E | _ ];
      [ lia | ].
    assert (Hdown : Py.lt prev cur = false).
    { apply lt_false_iff. apply Qle_trans with l1;
        [ exact Hc1 | apply Qlt_le_weak; exact Ha1 ]. }
    rewrite Hdown. unfold crossed_down.
    destruct (filter_nonempty
                (fun level => Py.le cur level && Py.lt level prev)
                (grid_levels b0) l1 Hin1
                (proj2 (crossed_down_spec prev cur l1) (conj Hc1 Ha1)))
      as (m & rest & Hf).
    rewrite Hf. simpl. exists m.
    destruct (filter_head_least _ _ _ _ Hs Hf) as (Hm & Hfm & Hmin).
    apply crossed_down_spec in Hfm.
    repeat split; try assumption.
    + right. exact Hfm.
    + intros level Hl [ [Hu1 Hu2] | Hd ].
      * exfalso. apply lt_false_iff in Hdown.
        apply (Qlt_irrefl prev).
        apply Qlt_le_trans with level; [ exact Hu1 | ].
        apply Qle_trans with cur; assumption.
      * apply Hmin; [ exact Hl | apply crossed_down_spec; exact Hd ].
Qed.

(** The constructor's [sorted] leaves the levels in ascending order. *)
Lemma insert_sorted_Sorted (x : Q) (l : list Q) :
  Sorted Qle l -> Sorted Qle (insert_sorted x l).
Proof.
  induction 1 as [ | y rest Hs IH Hhd ]; simpl.
  - repeat constructor.
  - destruct (Py.le x y) eqn:E.
    + apply le_true_iff in E. repeat constructor; assumption.
    + apply le_false_iff in E. constructor; [ exact IH | ].
      destruct rest as [ | z rest ]; simpl.
      * constructor. apply Qlt_le_weak. exact E.
      * destruct (Py.le x z); constructor.
        -- apply Qlt_le_weak. exact E.
        -- inversion Hhd; assumption.
Qed.

Lemma sorted_Sorted (l : list Q) : Sorted Qle (sorted l).
Proof.
  induction l as [ | x l IH ]; simpl.
  - constructor.
  - apply insert_sorted_Sorted. exact IH.
Qed.

Lemma load_previous_state_levels (b : GridBot) :
  grid_levels (load_previous_state b) = grid_levels b.
Proof.
  unfold load_previous_state.
  destruct (conn b) as [ db | ]; [ | reflexivity ].
  destruct (bot_state db); reflexivity.
Qed.

Lemma init_database_levels (disk : option Db) (b : GridBot) :
  grid_levels (init_database disk b) = grid_levels b.
Proof.
  unfold init_database.
  destruct disk as [ db | ]; [ | reflexivity ].
  destruct (bot_state db); reflexivity.
Qed.

Lemma GridBot_init_levels_sorted (config : Config) (disk : option Db) :
  Sorted Qle (grid_levels (GridBot_init config disk)).
Proof.
  unfold GridBot_init.
  rewrite load_previous_state_levels, init_database_levels. simpl.
  apply sorted_Sorted.
Qed.

(** ** P&L calculator *)

Lemma side_name_is_buy (s : Side) :
  String.eqb (side_name s) "Buy" = match s with Long => true | Short => false end.
Proof. destruct s; reflexivity. Qed.

(** C3. For a long the realized P&L is [(exit - entry) * size], for a short
    [(entry - exit) * size], less [size * entry * 0.00055] and
    [size * exit * 0.00055]; a negative result is lowered by a further 3% of
    its absolute value and a non-negative one is returned as it is.  Long,
    100 to 110, size 1 gives 9.8845; long, 100 to 90, size 1 gives
    -10.407635, within 0.0001 of -10.4077. *)
Theorem calculate_exact_pnl_with_buffer_contract :
  (forall (entry exit sz : Q) (s : Side),
     calculate_exact_pnl_with_buffer entry exit sz (side_name s)
     == realize_spec entry exit sz s) /\
  calculate_exact_pnl_with_buffer 100 110 1 "Buy" == 98845 # 10000 /\
  calculate_exact_pnl_with_buffer 100 90 1 "Buy" == - (10407635 # 1000000) /\
  Qabs (calculate_exact_pnl_with_buffer 100 90 1 "Buy" - - (104077 # 10000))
    < 1 # 10000.
Proof.
  split; [ | repeat split; vm_compute; reflexivity ].
  intros entry exit sz s.
  unfold calculate_exact_pnl_with_buffer, realize_spec, FEE_RATE, SAFETY_BUFFER.
  rewrite side_name_is_buy.
  destruct s.
  - destruct (Py.lt _ 0) eqn:E;
      [ apply lt_true_iff in E | apply lt_false_iff in E ];
      destruct (Qlt_le_dec _ 0) as [ H | H ];
      try (exfalso; lra).
    + assert (Habs :
        Qabs ((exit - entry) * sz
              - (sz * entry * (55 # 100000) + sz * exit * (55 # 100000)))
        == Qabs ((exit - entry) * sz - sz * entry * (55 # 100000)
                 - sz * exit * (55 # 100000))).
      { apply Qabs_wd. ring. }
      rewrite Habs. ring.
    + ring.
  - destruct (Py.lt _ 0) eqn:E;
      [ apply lt_true_iff in E | apply lt_false_iff in E ];
      destruct (Qlt_le_dec _ 0) as [ H | H ];
      try (exfalso; lra).
    + assert (Habs :
        Qabs ((entry - exit) * sz
              - (sz * entry * (55 # 100000) + sz * exit * (55 # 100000)))
        == Qabs ((entry - exit) * sz - sz * entry * (55 # 100000)
                 - sz * exit * (55 # 100000))).
      { apply Qabs_wd. ring. }
      rewrite Habs. ring.
    + ring.
Qed.

(** ** Loss-recovery update *)

Lemma save_state_fields (b : GridBot) :
  accumulated_losses (save_state b) = accumulated_losses b /\
  daily_pnl (save_state b) = daily_pnl b /\
  total_trades (save_state b) = total_trades b /\
  current_grid_level (save_state b) = current_grid_level b /\
  current_position (save_state b) = current_position b.
Proof.
  unfold save_state.
  destruct (conn b) as [ db | ]; [ destruct (bot_state db) | ];
    repeat split; reflexivity.
Qed.

Lemma update_pnl_tracking_fields (b : GridBot) (pnl : Q) :
  let b' := update_pnl_tracking b pnl in
  daily_pnl b' = daily_pnl b + pnl /\
  total_trades b' = (total_trades b + 1)%Z /\
  current_grid_level b' = current_grid_level b /\
  current_position b' = current_position b /\
  accumulated_losses b' =
    (if Py.lt pnl 0 then accumulated_losses b + Qabs pnl
     else if Py.lt 0 (accumulated_losses b)
          then Py.max 0 (accumulated_losses b - pnl)
          else accumulated_losses b).
Proof.
  unfold update_pnl_tracking. cbv zeta.
  match goal with
  | |- context [ save_state ?x ] =>
      destruct (save_state_fields x) as (Ha & Hd & Ht & Hg & Hp)
  end.
  rewrite Ha, Hd, Ht, Hg, Hp. simpl.
  destruct (Py.lt pnl 0); [ | destruct (Py.lt 0 (accumulated_losses b)) ];
    repeat split; reflexivity.
Qed.

Lemma update_pnl_tracking_nonneg (b : GridBot) (pnl : Q) :
  0 <= accumulated_losses b ->
  0 <= accumulated_losses (update_pnl_tracking b pnl).
Proof.
  intros Hacc.
  destruct (update_pnl_tracking_fields b pnl) as (_ & _ & _ & _ & Ha).
  rewrite Ha. unfold Py.max.
  pose proof (Qabs_nonneg pnl) as Habs.
  destruct (Py.lt pnl 0); [ lra | ].
  destruct (Py.lt 0 (accumulated_losses b)); [ | exact Hacc ].
  destruct (Py.lt 0 (accumulated_losses b - pnl)) eqn:E;
    [ apply lt_true_iff in E; lra | lra ].
Qed.

(** Any number of updates keeps the loss buffer non-negative. *)
Lemma updates_keep_losses_nonneg (pnls : list Q) (b : GridBot) :
  0 <= accumulated_losses b ->
  0 <= accumulated_losses (fold_left update_pnl_tracking pnls b).
Proof.
  revert b. induction pnls as [ | pnl pnls IH ]; intros b Hacc; simpl.
  - exact Hacc.
  - apply IH. apply update_pnl_tracking_nonneg. exact Hacc.
Qed.

(** C4. One update with the realized P&L, from a state whose
    [accumulated_losses] is not negative: a loss adds its absolute value to
    [accumulated_losses]; a profit (or zero) leaves
    [max(0, accumulated_losses - pnl)], the decrease being
    [min(accumulated_losses, pnl)], the [recovered] amount; [daily_pnl]
    grows by the P&L and [total_trades] by one; [accumulated_losses] is not
    negative afterwards. *)
Theorem update_pnl_tracking_rule (b : GridBot) (pnl : Q) :
  0 <= accumulated_losses b ->
  let b' := update_pnl_tracking b pnl in
  (pnl < 0 -> accumulated_losses b' == accumulated_losses b + Qabs pnl) /\
  (0 <= pnl ->
   accumulated_losses b' == Qmax 0 (accumulated_losses b - pnl) /\
   accumulated_losses b - accumulated_losses b'
     == Qmin (accumulated_losses b) pnl /\
   recovered b pnl == Qmin (accumulated_losses b) pnl) /\
  daily_pnl b' == daily_pnl b + pnl /\
  total_trades b' = (total_trades b + 1)%Z /\
  0 <= accumulated_losses b'.
Proof.
  intros Hacc b'.
  destruct (update_pnl_tracking_fields b pnl) as (Hd & Ht & _ & _ & Ha).
  fold b' in Hd, Ht, Ha. rewrite Hd, Ht, Ha. clear Hd Ht Ha b'.
  unfold recovered, Py.max, Py.min.
  pose proof (Qabs_nonneg pnl) as Habs.
  destruct (Py.lt pnl 0) eqn:Epnl;
    [ apply lt_true_iff in Epnl | apply lt_false_iff in Epnl ].
  - split; [ intros _; reflexivity | ].
    split; [ intros Hpos; exfalso; lra | ].
    split; [ reflexivity | ].
    split; [ reflexivity | lra ].
  - split; [ intros Hneg; exfalso; lra | ].
    destruct (Py.lt 0 (accumulated_losses b)) eqn:Eacc;
      [ apply lt_true_iff in Eacc | apply lt_false_iff in Eacc ].
    + destruct (Py.lt 0 (accumulated_losses b - pnl)) eqn:Ediff;
        [ apply lt_true_iff in Ediff | apply lt_false_iff in Ediff ].
      * assert (Hlt : Py.lt pnl (accumulated_losses b) = true)
          by (apply lt_true_iff; lra).
        rewrite Hlt.
        split; [ intros _ | ].
        { rewrite Q.max_r by lra. rewrite Q.min_r by lra.
          split; [ reflexivity | split; [ ring | reflexivity ] ]. }
        split; [ reflexivity | ].
        split; [ reflexivity | lra ].
      * assert (Hlt : Py.lt pnl (accumulated_losses b) = false)
          by (apply lt_false_iff; lra).
        rewrite Hlt.
        split; [ intros _ | ].
        { rewrite Q.max_l by lra. rewrite Q.min_l by lra.
          split; [ reflexivity | split; [ ring | reflexivity ] ]. }
        split; [ reflexivity | ].
        split; [ reflexivity | lra ].
    + assert (Hzero : accumulated_losses b == 0) by lra.
      assert (Hlt : Py.lt pnl (accumulated_losses b) = false)
        by (apply lt_false_iff; lra).
      rewrite Hlt.
      split; [ intros _ | ].
      { rewrite Q.max_l by lra. rewrite Q.min_l by lra.
        split; [ exact Hzero | split; [ lra | reflexivity ] ]. }
      split; [ reflexivity | ].
      split; [ reflexivity | exact Hacc ].
Qed.

(** ** Order failure while flat *)

Lemma get_price_order_answers (g : Gateway) :
  order_answers (snd (get_price g)) = order_answers g.
Proof.
  unfold get_price. destruct (price_answers g); reflexivity.
Qed.

Lemma get_position_info_order_answers (g : Gateway) :
  order_answers (snd (get_position_info g)) = order_answers g.
Proof.
  unfold get_position_info. destruct (position_answers g); reflexivity.
Qed.

Lemma next_order_answer_ext (g g' : Gateway) :
  order_answers g' = order_answers g ->
  next_order_answer g' = next_order_answer g.
Proof.
  unfold next_order_answer. intros ->. reflexivity.
Qed.

Lemma open_grid_position_order_error
    (b : GridBot) (g : Gateway) (price grid_level : Q) :
  is_error (next_order_answer g) = true ->
  snd (fst (open_grid_position b g price grid_level)) = b.
Proof.
  intros Herr. unfold open_grid_position, calculate_position_size.
  pose proof (get_price_order_answers g) as Hans.
  destruct (get_price g) as [ p g1 ]. simpl in Hans.
  destruct (Py.truthy_opt p); [ | reflexivity ].
  destruct (round_down _ _) as [ qty | ]; simpl; [ | reflexivity ].
  destruct (Py.truthy (if Py.lt qty (min_qty b) then min_qty b else qty));
    [ | reflexivity ].
  destruct (sl_tp_prices _ _ _ _ _) as [ [ sl tp ] | ]; [ | reflexivity ].
  unfold place_order, client_place_order.
  rewrite (next_order_answer_ext g g1 Hans).
  destruct (next_order_answer g); [ discriminate | reflexivity ].
Qed.

(** C7. When the order placed for a crossing is answered with an error,
    [open_grid_position] leaves the position, the grid level, the
    accumulated losses, the daily P&L, the trade count and the trade log as
    they were; so does [execute_grid_trade] when the exchange reports no
    position. *)
Theorem open_grid_position_failure_keeps_state
    (b : GridBot) (g : Gateway) (price grid_level : Q) :
  is_error (next_order_answer g) = true ->
  (let b' := snd (fst (open_grid_position b g price grid_level)) in
   current_position b' = current_position b /\
   current_grid_level b' = current_grid_level b /\
   accumulated_losses b' = accumulated_losses b /\
   daily_pnl b' = daily_pnl b /\
   total_trades b' = total_trades b /\
   trade_log b' = trade_log b) /\
  (fst (get_position_info g) = None ->
   let b' := fst (execute_grid_trade b g price grid_level) in
   current_position b' = current_position b /\
   current_grid_level b' = current_grid_level b /\
   accumulated_losses b' = accumulated_losses b /\
   daily_pnl b' = daily_pnl b /\
   total_trades b' = total_trades b /\
   trade_log b' = trade_log b).
Proof.
  intros Herr. split.
  - cbv zeta. rewrite (open_grid_position_order_error b g price grid_level Herr).
    repeat split; reflexivity.
  - intros Hflat. cbv zeta. unfold execute_grid_trade.
    pose proof (get_position_info_order_answers g) as Hans.
    destruct (get_position_info g) as [ pos g1 ]. simpl in Hflat, Hans.
    subst pos.
    assert (Herr1 : is_error (next_order_answer g1) = true).
    { rewrite (next_order_answer_ext g g1 Hans). exact Herr. }
    pose proof (open_grid_position_order_error b g1 price grid_level Herr1) as H.
    destruct (open_grid_position b g1 price grid_level) as [ [ r b' ] g' ].
    simpl in H. simpl. subst b'. repeat split; reflexivity.
Qed.

(** ** Persistence *)

Lemma or_else_same (v : Q) : Py.or_else (Some v) 0 == v.
Proof.
  unfold Py.or_else, Py.truthy.
  destruct (Qeq_bool v 0) eqn:E; simpl.
  - apply Qeq_bool_iff in E. symmetry. exact E.
  - reflexivity.
Qed.

Lemma or_elseZ_same (v : Z) : Py.or_elseZ (Some v) 0%Z = v.
Proof.
  unfold Py.or_elseZ. destruct (Z.eqb_spec v 0); congruence.
Qed.

Lemma init_database_available (db : Db) (b : GridBot) :
  ledger_available (init_database (Some db) b).
Proof.
  unfold ledger_available, init_database.
  destruct (bot_state db) eqn:E; simpl; [ rewrite E | ]; discriminate.
Qed.

(** C8. With the database open, saving the state and constructing a new bot
    on what was saved gives back the same accumulated losses, trade count
    and grid level (and the same daily P&L). *)
Theorem save_state_restart_round_trip (config : Config) (b : GridBot) :
  ledger_available b ->
  let b' := restart config (save_state b) in
  accumulated_losses b' == accumulated_losses b /\
  total_trades b' = total_trades b /\
  current_grid_level b' = current_grid_level b /\
  daily_pnl b' == daily_pnl b.
Proof.
  unfold ledger_available, restart, save_state.
  destruct (conn b) as [ db | ] eqn:Hconn; [ | contradiction ].
  destruct (bot_state db) as [ row | ] eqn:Hrow; [ | congruence ].
  intros _. unfold GridBot_init, init_database, load_previous_state. simpl.
  repeat split.
  - apply or_else_same.
  - apply or_elseZ_same.
  - apply or_else_same.
Qed.

(** ** Grid level and position *)

Lemma log_trade_fields (b : GridBot) (s : string) (gl usdt pnl : Q) :
  current_grid_level (log_trade b s gl usdt pnl) = current_grid_level b /\
  current_position (log_trade b s gl usdt pnl) = current_position b.
Proof.
  unfold log_trade. destruct (conn b); split; reflexivity.
Qed.

Lemma open_grid_position_level_position
    (b : GridBot) (g : Gateway) (price grid_level : Q) :
  let b' := snd (fst (open_grid_position b g price grid_level)) in
  b' = b \/
  (current_grid_level b' = Some grid_level /\ current_position b' <> None).
Proof.
  unfold open_grid_position.
  destruct (calculate_position_size _ _ _) as [ [ qty_opt | ] g1 ];
    [ | left; reflexivity ].
  destruct (Py.truthy_opt qty_opt); [ | left; reflexivity ].
  destruct (sl_tp_prices _ _ _ _ _) as [ [ sl tp ] | ]; [ | left; reflexivity ].
  destruct (place_order _ _ _ _ _) as [ [ order_id | msg ] g2 ];
    [ | left; reflexivity ].
  right. cbv zeta. simpl.
  match goal with
  | |- context [ log_trade ?x ?s ?gl ?u ?p ] =>
      destruct (log_trade_fields x s gl u p) as [ Hg Hp ]
  end.
  rewrite Hg, Hp. simpl. split; [ reflexivity | discriminate ].
Qed.

Lemma execute_reversal_level_position
    (b : GridBot) (g : Gateway) (pos : Position) (grid_level : Q) :
  let b' := snd (fst (execute_reversal b g pos grid_level)) in
  current_grid_level b' = current_grid_level b /\
  (current_position b' = current_position b \/ current_position b' <> None).
Proof.
  unfold execute_reversal.
  destruct (get_price g) as [ p g1 ].
  destruct (Py.truthy_opt p); [ | split; [ | left ]; reflexivity ].
  cbv zeta.
  match goal with
  | |- context [ update_pnl_tracking ?x ?v ] =>
      destruct (update_pnl_tracking_fields x v) as (_ & _ & Hg & Hp & _);
      set (b1 := update_pnl_tracking x v) in *
  end.
  destruct (reverse_position _ _ _ _ _ _) as [ [ [ order_id | msg ] | ] g2 ];
    simpl.
  - match goal with
    | |- context [ log_trade ?x ?s ?gl ?u ?q ] =>
        destruct (log_trade_fields x s gl u q) as [ Hg' Hp' ]
    end.
    rewrite Hg', Hp'. simpl. split; [ exact Hg | right; discriminate ].
  - split; [ exact Hg | left; exact Hp ].
  - split; [ exact Hg | left; exact Hp ].
Qed.

Lemma monitor_position_status_level_position (b : GridBot) (g : Gateway) :
  let b' := fst (monitor_position_status b g) in
  b' = b \/ (current_grid_level b' = None /\ current_position b' = None).
Proof.
  unfold monitor_position_status.
  destruct (current_position b) as [ pos | ]; [ | left; reflexivity ].
  destruct (detect_position_closure b g) as [ [ | ] g1 ]; [ | left; reflexivity ].
  destruct (get_price g1) as [ p g2 ].
  destruct (Py.truthy_opt p); [ | left; reflexivity ].
  right. split; reflexivity.
Qed.

Lemma execute_grid_trade_preserves (b : GridBot) (g : Gateway) (price grid_level : Q) :
  level_iff_position b ->
  level_iff_position (fst (execute_grid_trade b g price grid_level)).
Proof.
  intros Hinv. unfold execute_grid_trade.
  destruct (get_position_info g) as [ [ pos | ] g1 ].
  - destruct (should_reverse_position b price grid_level pos) eqn:Hrev;
      [ | exact Hinv ].
    pose proof (execute_reversal_level_position b g1 pos grid_level) as H.
    destruct (execute_reversal b g1 pos grid_level) as [ [ r b' ] g' ].
    simpl in H. simpl. destruct H as [ Hg [ Hp | Hp ] ].
    + unfold level_iff_position. rewrite Hg, Hp. exact Hinv.
    + unfold level_iff_position. rewrite Hg. split; intros _; [ exact Hp | ].
      unfold should_reverse_position in Hrev.
      destruct (current_grid_level b); [ discriminate | discriminate ].
  - pose proof (open_grid_position_level_position b g1 price grid_level) as H.
    destruct (open_grid_position b g1 price grid_level) as [ [ r b' ] g' ].
    simpl in H. simpl. destruct H as [ -> | [ Hg Hp ] ]; [ exact Hinv | ].
    unfold level_iff_position. rewrite Hg.
    split; intros _; [ exact Hp | discriminate ].
Qed.

Lemma check_grid_crossing_preserves (b : GridBot) (p : Q) :
  level_iff_position b ->
  level_iff_position (snd (check_grid_crossing b p)).
Proof.
  destruct (check_grid_crossing_tracks b p) as (_ & _ & _ & Hp & Hg & _).
  unfold level_iff_position. rewrite Hp, Hg. tauto.
Qed.

Lemma step_preserves (s : GridBot * Gateway) (e : Event) :
  level_iff_position (fst s) -> level_iff_position (fst (step s e)).
Proof.
  destruct s as [ b g ]. simpl. intros Hinv.
  destruct e as [ [ | [ price | ] ] | ]; simpl; try exact Hinv.
  - destruct (Py.truthy price); [ | exact Hinv ].
    pose proof (check_grid_crossing_preserves b price Hinv) as H1.
    destruct (check_grid_crossing b price) as [ crossed b1 ]. simpl in H1.
    destruct (Py.truthy_opt crossed); [ | exact H1 ].
    pose proof (execute_grid_trade_preserves b1 g price
                  (Py.or_else crossed 0) H1) as H2.
    destruct (execute_grid_trade b1 g price (Py.or_else crossed 0)) as [ b2 g2 ].
    exact H2.
  - pose proof (monitor_position_status_level_position b g) as H.
    destruct (monitor_position_status b g) as [ b' g' ]. simpl in H. simpl.
    destruct H as [ -> | [ Hg Hp ] ]; [ exact Hinv | ].
    unfold level_iff_position. rewrite Hg, Hp. tauto.
Qed.

(** C9, as the code has it.  One complete execution of [handle_ticker], or
    of [monitor_position_status], that starts with "the grid level is set
    exactly when a position is recorded" ends with it, provided the other
    handler does not run in between.  The source takes no lock between the
    WebSocket callback and the polling loop and writes the position and the
    level in separate statements, so nothing is said of executions that
    overlap; start-up recovery is not covered either. *)
Theorem level_iff_position_kept_by_each_handler
    (b : GridBot) (g : Gateway) (msg : TickerMsg) :
  level_iff_position b ->
  level_iff_position (snd (fst (handle_ticker b g msg))) /\
  level_iff_position (fst (monitor_position_status b g)).
Proof.
  intros Hinv. split.
  - pose proof (step_preserves (b, g) (Tick msg) Hinv) as H. simpl in H.
    destruct (handle_ticker b g msg) as [ [ r b' ] g' ]. exact H.
  - exact (step_preserves (b, g) Poll Hinv).
Qed.

(** C9, the claim as stated fails: after a closure detected by a poll and a
    restart, the new bot holds grid level 10 and no position. *)
Lemma level_without_position_after_restart :
  ~ level_iff_position closure_then_restart.
Proof.
  intros [ H _ ].
  assert (Hg : current_grid_level closure_then_restart = Some 10)
    by (vm_compute; reflexivity).
  assert (Hp : current_position closure_then_restart = None)
    by (vm_compute; reflexivity).
  apply H; [ rewrite Hg; discriminate | exact Hp ].
Qed.

(** ** Reversal *)

(** Whatever [reverse_position] sends is an order for twice the current
    quantity on the other side. *)
Lemma reverse_position_order
    (g : Gateway) (current_qty : Q) (current_side : string) (sl tp lev : Q) :
  let g' := snd (reverse_position g current_qty current_side sl tp lev) in
  orders g' = orders g \/
  exists tp_price sl_price,
    orders g' = orders g ++
      [mkOrder (opposite current_side) (current_qty * 2) tp_price sl_price].
Proof.
  unfold reverse_position, get_price.
  destruct (price_answers g) as [ | a rest ]; simpl.
  - left. reflexivity.
  - destruct (Py.truthy_opt a); [ | left; reflexivity ].
    destruct (sl_tp_prices _ _ _ _ _) as [ [ sl_price tp_price ] | ];
      [ | left; reflexivity ].
    right. exists tp_price, sl_price. reflexivity.
Qed.

(** C1, the code at a concrete reversal.  The bot holds a long of 0.9
    entered at 101 from level 100 with a base stake of 10 and leverage 10;
    the price returns to 99.  The closed leg loses 1.95597, so the new stake
    is 11.95597, which buys 1.2 at 99.  The order sent is a sell of 1.8,
    twice the current size, not the 0.9 + 1.2 = 2.1 that would leave a
    short of the new stake; the bot records a short of 1.8. *)
Theorem execute_reversal_orders_twice_the_size :
  let b := fst reversal_run in
  let g := snd reversal_run in
  map order_side (orders g) = ["Buy"; "Sell"]%string /\
  Forall2 Qeq (map order_qty (orders g)) [9 # 10; 18 # 10] /\
  accumulated_losses b == 195597 # 100000 /\
  calculate_position_size_with_recovery b == 1195597 # 100000 /\
  (exists q,
     quantity_for_stake b (calculate_position_size_with_recovery b) 99
       = Return (Some q) /\ q == 12 # 10) /\
  ~ (18 # 10 == (9 # 10) + (12 # 10)) /\
  (exists p, current_position b = Some p /\
             side p = "Sell"%string /\ size p == 18 # 10).
Proof.
  cbv zeta.
  split; [ vm_compute; reflexivity | ].
  split; [ vm_compute; repeat constructor | ].
  split; [ vm_compute; reflexivity | ].
  split; [ vm_compute; reflexivity | ].
  split.
  { eexists. split; [ vm_compute; reflexivity | vm_compute; reflexivity ]. }
  split; [ intros H; vm_compute in H; discriminate H | ].
  eexists. split; [ vm_compute; reflexivity | ].
  split; vm_compute; reflexivity.
Qed.

(** ** Instances *)

Lemma check_grid_crossing_lowest_crossed_witness :
  Sorted Qle (grid_levels (fresh_bot [10; 20; 30])) /\
  ~ 35 == 0 /\
  lies_between 35 5 10 /\ lies_between 35 5 20 /\
  exists m,
    fst (check_grid_crossing
           (snd (check_grid_crossing (fresh_bot [10; 20; 30]) 35)) 5) = Some m /\
    In m (grid_levels (fresh_bot [10; 20; 30])) /\
    lies_between 35 5 m /\
    forall level, In level (grid_levels (fresh_bot [10; 20; 30])) ->
                  lies_between 35 5 level -> m <= level.
Proof.
  assert (Hs : Sorted Qle (grid_levels (fresh_bot [10; 20; 30])))
    by apply GridBot_init_levels_sorted.
  assert (Hnz : ~ 35 == 0) by (intros H; discriminate H).
  assert (H1 : lies_between 35 5 10)
    by (right; split; [ intros H; discriminate H | reflexivity ]).
  assert (H2 : lies_between 35 5 20)
    by (right; split; [ intros H; discriminate H | reflexivity ]).
  split; [ exact Hs | ].
  split; [ exact Hnz | ].
  split; [ exact H1 | ].
  split; [ exact H2 | ].
  apply (check_grid_crossing_lowest_crossed
           (fresh_bot [10; 20; 30]) 35 5 10 20 Hs Hnz).
  - simpl. left. reflexivity.
  - simpl. right. left. reflexivity.
  - reflexivity.
  - exact H1.
  - exact H2.
Defined.

Lemma update_pnl_tracking_rule_witness :
  let b := update_pnl_tracking (fresh_bot [10]) (- (104077 # 10000)) in
  let b' := update_pnl_tracking b 15 in
  0 <= accumulated_losses b /\
  accumulated_losses b == 104077 # 10000 /\
  accumulated_losses b' == Qmax 0 (accumulated_losses b - 15) /\
  accumulated_losses b' == 0 /\
  recovered b 15 == 104077 # 10000 /\
  total_trades b' = 2%Z.
Proof.
  cbv zeta.
  assert (H0 : 0 <= accumulated_losses
                      (update_pnl_tracking (fresh_bot [10]) (- (104077 # 10000))))
    by (intros H; vm_compute in H; discriminate H).
  destruct (update_pnl_tracking_rule
              (update_pnl_tracking (fresh_bot [10]) (- (104077 # 10000))) 15 H0)
    as (_ & Hprofit & _ & Ht & _).
  destruct Hprofit as (Hmax & _ & _); [ intros H; discriminate H | ].
  split; [ exact H0 | ].
  split; [ vm_compute; reflexivity | ].
  split; [ exact Hmax | ].
  split; [ vm_compute; reflexivity | ].
  split; [ vm_compute; reflexivity | ].
  rewrite Ht. vm_compute. reflexivity.
Defined.

Lemma open_grid_position_failure_keeps_state_witness :
  let b := snd (check_grid_crossing
                  (snd (check_grid_crossing (fresh_bot [10]) 9)) 11) in
  let g := mkGateway [Some 11] [] [OrderError "rejected"%string] [] in
  is_error (next_order_answer g) = true /\
  orders (snd (open_grid_position b g 11 10)) <> [] /\
  current_position (snd (fst (open_grid_position b g 11 10))) = None /\
  current_grid_level (fst (execute_grid_trade b g 11 10)) = None /\
  trade_log (fst (execute_grid_trade b g 11 10)) = [].
Proof.
  cbv zeta.
  split; [ reflexivity | ].
  split; [ vm_compute; discriminate | ].
  destruct (open_grid_position_failure_keeps_state
              (snd (check_grid_crossing
                      (snd (check_grid_crossing (fresh_bot [10]) 9)) 11))
              (mkGateway [Some 11] [] [OrderError "rejected"%string] [])
              11 10 eq_refl)
    as [ (Hp & _) Hflat ].
  destruct (Hflat eq_refl) as (_ & Hg & _ & _ & _ & Hlog).
  split; [ rewrite Hp; reflexivity | ].
  split; [ rewrite Hg; reflexivity | rewrite Hlog; reflexivity ].
Defined.

Lemma save_state_restart_round_trip_witness :
  let b := fst reversal_run in
  let b' := restart (config_with_levels [100]) (save_state b) in
  ledger_available b /\
  accumulated_losses b == 195597 # 100000 /\
  accumulated_losses b' == accumulated_losses b /\
  total_trades b' = 1%Z /\
  current_grid_level b' = Some 100.
Proof.
  cbv zeta.
  assert (Hav : ledger_available (fst reversal_run))
    by (vm_compute; discriminate).
  destruct (save_state_restart_round_trip
              (config_with_levels [100]) (fst reversal_run) Hav)
    as (Ha & Ht & Hg & _).
  split; [ exact Hav | ].
  split; [ vm_compute; reflexivity | ].
  split; [ exact Ha | ].
  split; [ rewrite Ht; vm_compute; reflexivity | ].
  rewrite Hg. vm_compute. reflexivity.
Defined.

Lemma level_iff_position_kept_by_each_handler_witness :
  let g := mkGateway [Some 11; Some 12] [] [OrderOk (Some "order-1"%string)] [] in
  let b := snd (fst (handle_ticker (fresh_bot [10]) g (Data (Some 9)))) in
  level_iff_position b /\
  current_position (snd (fst (handle_ticker b g (Data (Some 11))))) <> None /\
  level_iff_position (snd (fst (handle_ticker b g (Data (Some 11))))) /\
  level_iff_position (fst (monitor_position_status b g)).
Proof.
  cbv zeta.
  assert (H0 : level_iff_position
                 (snd (fst (handle_ticker (fresh_bot [10])
                              (mkGateway [Some 11; Some 12] []
                                 [OrderOk (Some "order-1"%string)] [])
                              (Data (Some 9))))))
    by (split; intros H; exfalso; apply H; reflexivity).
  split; [ exact H0 | ].
  split; [ vm_compute; discriminate | ].
  exact (level_iff_position_kept_by_each_handler _
           (mkGateway [Some 11; Some 12] [] [OrderOk (Some "order-1"%string)] [])
           (Data (Some 11)) H0).
Defined.

(** * Further properties of the code *)

(** ** Zones and crossings *)

Lemma first_ge_monotone (levels : list Q) (p q : Q) :
  p <= q -> (first_ge levels p <= first_ge levels q)%nat.
Proof.
  intros Hpq. induction levels as [ | level rest IH ]; simpl; [ lia | ].
  destruct (Py.le p level) eqn:Ep; [ lia | ].
  apply le_false_iff in Ep.
  assert (Eq : Py.le q level = false).
  { apply le_false_iff. apply Qlt_le_trans with p; assumption. }
  rewrite Eq. lia.
Qed.

(** X1. The zone index never decreases when the price increases, whatever
    the levels are. *)
Theorem get_grid_zone_monotone (b : GridBot) (p q : Q) :
  p <= q -> (get_grid_zone b p <= get_grid_zone b q)%nat.
Proof.
  intros Hpq. rewrite !get_grid_zone_first_ge.
  apply first_ge_monotone. exact Hpq.
Qed.

Lemma hd_filter_In {A : Type} (f : A -> bool) (l : list A) (m : A) (rest : list A) :
  filter f l = m :: rest -> In m l /\ f m = true.
Proof.
  intros H. apply filter_In. rewrite H. left. reflexivity.
Qed.

(** X2. A level reported by [check_grid_crossing] is one of the configured
    levels, lies between the recorded price and the current one (open at
    the recorded price, closed at the current price), and is reported only
    when the zone changed. *)
Theorem check_grid_crossing_reports_crossed_level
    (b : GridBot) (cur m : Q) :
  fst (check_grid_crossing b cur) = Some m ->
  exists prev z,
    last_price b = Some prev /\ ~ prev == 0 /\
    last_grid_zone b = Some z /\ z <> get_grid_zone b cur /\
    In m (grid_levels b) /\ lies_between prev cur m.
Proof.
  unfold check_grid_crossing.
  destruct (last_price b) as [ prev | ]; [ | discriminate ].
  destruct (Py.truthy prev) eqn:Ht; [ | discriminate ].
  destruct (last_grid_zone b) as [ z | ]; [ | discriminate ].
  destruct (Nat.eqb_spec (get_grid_zone b cur) z) as [ E | E ];
    simpl; [ discriminate | ].
  intros H. exists prev, z.
  split; [ reflexivity | ].
  split; [ apply truthy_true_iff; exact Ht | ].
  split; [ reflexivity | ].
  split; [ congruence | ].
  destruct (Py.lt prev cur).
  - unfold crossed_up in H.
    destruct (filter _ _) as [ | level rest ] eqn:Hf; [ discriminate | ].
    simpl in H. injection H as ->.
    destruct (hd_filter_In _ _ _ _ Hf) as [ Hin Hm ].
    split; [ exact Hin | left; apply crossed_up_spec; exact Hm ].
  - unfold crossed_down in H.
    destruct (filter _ _) as [ | level rest ] eqn:Hf; [ discriminate | ].
    simpl in H. injection H as ->.
    destruct (hd_filter_In _ _ _ _ Hf) as [ Hin Hm ].
    split; [ exact Hin | right; apply crossed_down_spec; exact Hm ].
Qed.

Lemma check_grid_crossing_reports_crossed_level_witness :
  let b := snd (check_grid_crossing (fresh_bot [10; 20; 30]) 35) in
  fst (check_grid_crossing b 5) = Some 10 /\
  exists prev z,
    last_price b = Some prev /\ ~ prev == 0 /\
    last_grid_zone b = Some z /\ z <> get_grid_zone b 5 /\
    In 10 (grid_levels b) /\ lies_between prev 5 10.
Proof.
  cbv zeta. split; [ reflexivity | ].
  apply (check_grid_crossing_reports_crossed_level
           (snd (check_grid_crossing (fresh_bot [10; 20; 30]) 35)) 5 10).
  reflexivity.
Defined.

Lemma get_grid_zone_monotone_witness :
  15 <= 25 /\
  Nat.le (get_grid_zone (fresh_bot [10; 20; 30]) 15)
         (get_grid_zone (fresh_bot [10; 20; 30]) 25).
Proof.
  assert (H : 15 <= 25) by (intros H; discriminate H).
  split; [ exact H | ].
  apply (get_grid_zone_monotone (fresh_bot [10; 20; 30]) 15 25 H).
Defined.

(** On sorted levels two prices have the same zone exactly when no level
    separates them. *)
Lemma filter_length_eq {A : Type} (f g : A -> bool) (l : list A) :
  (forall x, In x l -> f x = g x) ->
  length (filter f l) = length (filter g l).
Proof.
  induction l as [ | a l IH ]; simpl; intros H; [ reflexivity | ].
  rewrite (H a (or_introl eq_refl)).
  assert (IH' : length (filter f l) = length (filter g l)).
  { apply IH. intros x Hx. apply H. right. exact Hx. }
  destruct (g a); simpl; lia.
Qed.

Lemma first_ge_same_zone_iff (levels : list Q) (lo hi : Q) :
  StronglySorted Qle levels -> lo <= hi ->
  (first_ge levels lo = first_ge levels hi <->
   ~ exists level, In level levels /\ lo <= level /\ level < hi).
Proof.
  intros Hs Hle. split.
  - intros Heq (level & Hin & H1 & H2).
    pose proof (first_ge_separated levels lo hi level Hs Hin H1 H2). lia.
  - intros Hnone. rewrite !first_ge_count by assumption.
    apply filter_length_eq. intros x Hx.
    destruct (Py.lt x lo) eqn:E1; destruct (Py.lt x hi) eqn:E2;
      try reflexivity.
    + apply lt_true_iff in E1. apply lt_false_iff in E2.
      exfalso. apply (Qlt_irrefl x).
      apply Qlt_le_trans with lo; [ exact E1 | ].
      apply Qle_trans with hi; assumption.
    + apply lt_false_iff in E1. apply lt_true_iff in E2.
      exfalso. apply Hnone. exists x. auto.
Qed.

Lemma filter_length_differs {A : Type} (f g : A -> bool) (l : list A) :
  length (filter f l) <> length (filter g l) ->
  exists x, In x l /\ f x <> g x.
Proof.
  induction l as [ | a l IH ]; simpl; intros H; [ congruence | ].
  destruct (f a) eqn:Ef; destruct (g a) eqn:Eg;
    try (exists a; split; [ left; reflexivity | congruence ]).
  - simpl in H. destruct IH as (x & Hx & Hfg); [ lia | ].
    exists x. split; [ right; exact Hx | exact Hfg ].
  - destruct IH as (x & Hx & Hfg); [ exact H | ].
    exists x. split; [ right; exact Hx | exact Hfg ].
Qed.

Lemma first_ge_differs (levels : list Q) (lo hi : Q) :
  StronglySorted Qle levels -> lo <= hi ->
  first_ge levels lo <> first_ge levels hi ->
  exists level, In level levels /\ lo <= level /\ level < hi.
Proof.
  intros Hs Hle Hne. rewrite !first_ge_count in Hne by assumption.
  destruct (filter_length_differs _ _ _ Hne) as (x & Hx & Hfg).
  exists x. split; [ exact Hx | ].
  destruct (Py.lt x lo) eqn:E1; destruct (Py.lt x hi) eqn:E2;
    try congruence.
  - apply lt_true_iff in E1. apply lt_false_iff in E2.
    exfalso. apply (Qlt_irrefl x).
    apply Qlt_le_trans with lo; [ exact E1 | ].
    apply Qle_trans with hi; assumption.
  - apply lt_false_iff in E1. apply lt_true_iff in E2. auto.
Qed.

(** X3. On ascending levels and after a recorded non-zero price, an
    observation reports a level exactly in two situations.  Moving down (or
    not at all), when some level lies in [[current, previous)].  Moving up,
    when some level lies in [(previous, current]] and some level lies in
    [[previous, current)]: a single level sitting exactly on the previous
    price, or exactly on the current one, is not reported. *)
Theorem crossing_reported_iff (b0 : GridBot) (prev cur : Q) :
  Sorted Qle (grid_levels b0) ->
  ~ prev == 0 ->
  let b1 := snd (check_grid_crossing b0 prev) in
  fst (check_grid_crossing b1 cur) <> None <->
  (exists level, In level (grid_levels b0) /\ cur <= level /\ level < prev) \/
  ((exists level, In level (grid_levels b0) /\ prev < level /\ level <= cur) /\
   (exists level, In level (grid_levels b0) /\ prev <= level /\ level < cur)).
Proof.
  intros Hsorted Hprev b1.
  assert (Hs : StronglySorted Qle (grid_levels b0)).
  { apply Sorted_StronglySorted; [ | exact Hsorted ].
    intros x y z. apply Qle_trans. }
  destruct (check_grid_crossing_tracks b0 prev) as (Hlp & Hlz & Hlv & _).
  fold b1 in Hlp, Hlz, Hlv.
  rewrite get_grid_zone_first_ge, <- Hlv in Hlz.
  rewrite (check_grid_crossing_result b1 prev cur Hlp Hlz
             (proj2 (truthy_true_iff prev) Hprev)).
  rewrite Hlv. clear Hlp Hlz Hlv b1.
  destruct (Py.lt prev cur) eqn:Edir;
    [ apply lt_true_iff in Edir | apply lt_false_iff in Edir ].
  - (* upwards *)
    split.
    + intros Hres. right.
      destruct (Nat.eqb_spec (first_ge (grid_levels b0) cur)
                             (first_ge (grid_levels b0) prev)) as [ E | E ];
        [ congruence | ].
      split.
      * unfold crossed_up in Hres.
        destruct (filter _ _) as [ | m rest ] eqn:Hf; [ simpl in Hres; congruence | ].
        destruct (hd_filter_In _ _ _ _ Hf) as [ Hin Hm ].
        apply crossed_up_spec in Hm. exists m. tauto.
      * apply first_ge_differs; [ exact Hs | apply Qlt_le_weak; exact Edir | ].
        congruence.
    + intros [ (level & _ & H1 & H2) | [ (l1 & Hin1 & Ha & Hb) (l2 & Hin2 & Hc & Hd) ] ].
      * exfalso. apply (Qlt_irrefl prev).
        apply Qlt_le_trans with cur; [ exact Edir | ].
        apply Qle_trans with level; [ exact H1 | apply Qlt_le_weak; exact H2 ].
      * pose proof (first_ge_separated _ prev cur l2 Hs Hin2 Hc Hd) as Hz.
        destruct (Nat.eqb_spec (first_ge (grid_levels b0) cur)
                               (first_ge (grid_levels b0) prev)) as [ E | _ ];
          [ lia | ].
        unfold crossed_up.
        destruct (filter_nonempty
                    (fun level => Py.lt prev level && Py.le level cur)
                    (grid_levels b0) l1 Hin1
                    (proj2 (crossed_up_spec prev cur l1) (conj Ha Hb)))
          as (m & rest & Hf).
        rewrite Hf. simpl. discriminate.
  - (* downwards *)
    split.
    + intros Hres. left.
      destruct (Nat.eqb_spec (first_ge (grid_levels b0) cur)
                             (first_ge (grid_levels b0) prev)) as [ E | E ];
        [ congruence | ].
      apply first_ge_differs; assumption.
    + intros [ (level & Hin & H1 & H2) | [ (l1 & _ & Ha & Hb) _ ] ].
      * pose proof (first_ge_separated _ cur prev level Hs Hin H1 H2) as Hz.
        destruct (Nat.eqb_spec (first_ge (grid_levels b0) cur)
                               (first_ge (grid_levels b0) prev)) as [ E | _ ];
          [ lia | ].
        unfold crossed_down.
        destruct (filter_nonempty
                    (fun level => Py.le cur level && Py.lt level prev)
                    (grid_levels b0) level Hin
                    (proj2 (crossed_down_spec prev cur level) (conj H1 H2)))
          as (m & rest & Hf).
        rewrite Hf. simpl. discriminate.
      * exfalso. apply (Qlt_irrefl prev).
        apply Qlt_le_trans with l1; [ exact Ha | ].
        apply Qle_trans with cur; assumption.
Qed.

Lemma crossing_reported_iff_witness :
  Sorted Qle (grid_levels (fresh_bot [10; 20])) /\ ~ 10 == 0 /\
  (fst (check_grid_crossing
          (snd (check_grid_crossing (fresh_bot [10; 20]) 10)) 20) <> None <->
   (exists level, In level (grid_levels (fresh_bot [10; 20])) /\
                  20 <= level /\ level < 10) \/
   ((exists level, In level (grid_levels (fresh_bot [10; 20])) /\
                   10 < level /\ level <= 20) /\
    (exists level, In level (grid_levels (fresh_bot [10; 20])) /\
                   10 <= level /\ level < 20))).
Proof.
  assert (Hs : Sorted Qle (grid_levels (fresh_bot [10; 20])))
    by apply GridBot_init_levels_sorted.
  assert (Hnz : ~ 10 == 0) by (intros H; discriminate H).
  split; [ exact Hs | ].
  split; [ exact Hnz | ].
  apply (crossing_reported_iff (fresh_bot [10; 20]) 10 20 Hs Hnz).
Defined.

(** ** What each operation leaves alone *)

Lemma log_trade_frame (b : GridBot) (s : string) (gl usdt pnl : Q) :
  let b' := log_trade b s gl usdt pnl in
  config_of b' = config_of b /\ tracker_of b' = tracker_of b /\
  pnl_state b' = pnl_state b /\
  current_position b' = current_position b /\
  current_grid_level b' = current_grid_level b /\
  current_order_id b' = current_order_id b.
Proof.
  unfold log_trade. destruct (conn b); repeat split; reflexivity.
Qed.

Lemma save_state_frame (b : GridBot) :
  config_of (save_state b) = config_of b /\
  tracker_of (save_state b) = tracker_of b /\
  pnl_state (save_state b) = pnl_state b /\
  trade_log (save_state b) = trade_log b.
Proof.
  unfold save_state, trade_log.
  destruct (conn b) as [ db | ] eqn:Hc; [ destruct (bot_state db) | ];
    simpl; try rewrite Hc; repeat split; reflexivity.
Qed.

Lemma update_pnl_tracking_frame (b : GridBot) (pnl : Q) :
  config_of (update_pnl_tracking b pnl) = config_of b /\
  tracker_of (update_pnl_tracking b pnl) = tracker_of b /\
  trade_log (update_pnl_tracking b pnl) = trade_log b /\
  current_order_id (update_pnl_tracking b pnl) = current_order_id b.
Proof.
  unfold update_pnl_tracking. cbv zeta.
  match goal with
  | |- context [ save_state ?x ] =>
      destruct (save_state_frame x) as (Hc & Ht & _ & Hl);
      assert (Ho : current_order_id (save_state x) = current_order_id x)
        by (unfold save_state; destruct (conn x) as [ db | ];
            [ destruct (bot_state db) | ]; reflexivity)
  end.
  rewrite Hc, Ht, Hl, Ho.
  destruct (Py.lt pnl 0); [ | destruct (Py.lt 0 _) ];
    repeat split; reflexivity.
Qed.

Lemma trade_log_log_trade (b : GridBot) (s : string) (gl usdt pnl : Q) :
  trade_log (log_trade b s gl usdt pnl) = trade_log b \/
  trade_log (log_trade b s gl usdt pnl) =
    trade_log b ++ [mkTrade s gl usdt pnl (accumulated_losses b)].
Proof.
  unfold log_trade, trade_log.
  destruct (conn b) as [ db | ] eqn:Hc; simpl;
    [ right | left; rewrite Hc ]; reflexivity.
Qed.

Lemma open_grid_position_frame
    (b : GridBot) (g : Gateway) (price grid_level : Q) :
  let b' := snd (fst (open_grid_position b g price grid_level)) in
  config_of b' = config_of b /\ tracker_of b' = tracker_of b /\
  pnl_state b' = pnl_state b.
Proof.
  unfold open_grid_position.
  destruct (calculate_position_size _ _ _) as [ [ qty_opt | ] g1 ];
    [ | repeat split; reflexivity ].
  destruct (Py.truthy_opt qty_opt); [ | repeat split; reflexivity ].
  destruct (sl_tp_prices _ _ _ _ _) as [ [ sl tp ] | ];
    [ | repeat split; reflexivity ].
  destruct (place_order _ _ _ _ _) as [ [ order_id | msg ] g2 ];
    [ | repeat split; reflexivity ].
  cbv zeta. simpl.
  match goal with
  | |- context [ log_trade ?x ?s ?gl ?u ?p ] =>
      destruct (log_trade_frame x s gl u p) as (Hc & Ht & Hp & _)
  end.
  rewrite Hc, Ht, Hp. repeat split; reflexivity.
Qed.

Lemma execute_reversal_frame
    (b : GridBot) (g : Gateway) (pos : Position) (grid_level : Q) :
  let b' := snd (fst (execute_reversal b g pos grid_level)) in
  config_of b' = config_of b /\ tracker_of b' = tracker_of b /\
  (pnl_state b' = pnl_state b \/
   exists pnl, pnl_state b' = pnl_state (update_pnl_tracking b pnl)).
Proof.
  unfold execute_reversal.
  destruct (get_price g) as [ p g1 ].
  destruct (Py.truthy_opt p); [ | repeat split; try left; reflexivity ].
  cbv zeta.
  match goal with
  | |- context [ update_pnl_tracking ?x ?v ] =>
      destruct (update_pnl_tracking_frame x v) as (Hc & Ht & _);
      set (pnl := v) in *; set (b1 := update_pnl_tracking x pnl) in *
  end.
  destruct (reverse_position _ _ _ _ _ _) as [ [ [ order_id | msg ] | ] g2 ];
    simpl.
  - match goal with
    | |- context [ log_trade ?x ?s ?gl ?u ?q ] =>
        destruct (log_trade_frame x s gl u q) as (Hc' & Ht' & Hp' & _)
    end.
    rewrite Hc', Ht', Hp'.
    split; [ exact Hc | split; [ exact Ht | right; exists pnl; reflexivity ] ].
  - split; [ exact Hc | split; [ exact Ht | right; exists pnl; reflexivity ] ].
  - split; [ exact Hc | split; [ exact Ht | right; exists pnl; reflexivity ] ].
Qed.

Lemma monitor_position_status_frame (b : GridBot) (g : Gateway) :
  let b' := fst (monitor_position_status b g) in
  config_of b' = config_of b /\ tracker_of b' = tracker_of b /\
  (pnl_state b' = pnl_state b \/
   exists pnl, pnl_state b' = pnl_state (update_pnl_tracking b pnl)).
Proof.
  unfold monitor_position_status.
  destruct (current_position b) as [ pos | ];
    [ | repeat split; try left; reflexivity ].
  destruct (detect_position_closure b g) as [ [ | ] g1 ];
    [ | repeat split; try left; reflexivity ].
  destruct (get_price g1) as [ p g2 ].
  destruct (Py.truthy_opt p); [ | repeat split; try left; reflexivity ].
  cbv zeta. simpl.
  match goal with
  | |- context [ update_pnl_tracking ?x ?v ] =>
      destruct (update_pnl_tracking_frame x v) as (Hc & Ht & _);
      set (pnl := v) in *; set (b1 := update_pnl_tracking x pnl) in *
  end.
  match goal with
  | |- context [ log_trade ?x ?s ?gl ?u ?q ] =>
      destruct (log_trade_frame x s gl u q) as (Hc' & Ht' & Hp' & _)
  end.
  unfold config_of, tracker_of, pnl_state in *. simpl.
  split; [ rewrite <- Hc; exact Hc' | ].
  split; [ rewrite <- Ht; exact Ht' | ].
  right. exists pnl. exact Hp'.
Qed.

Lemma execute_grid_trade_frame
    (b : GridBot) (g : Gateway) (price grid_level : Q) :
  let b' := fst (execute_grid_trade b g price grid_level) in
  config_of b' = config_of b /\ tracker_of b' = tracker_of b /\
  (pnl_state b' = pnl_state b \/
   exists pnl, pnl_state b' = pnl_state (update_pnl_tracking b pnl)).
Proof.
  unfold execute_grid_trade.
  destruct (get_position_info g) as [ [ pos | ] g1 ].
  - destruct (should_reverse_position b price grid_level pos);
      [ | repeat split; try left; reflexivity ].
    pose proof (execute_reversal_frame b g1 pos grid_level) as H.
    destruct (execute_reversal b g1 pos grid_level) as [ [ r b' ] g' ].
    exact H.
  - pose proof (open_grid_position_frame b g1 price grid_level) as H.
    destruct (open_grid_position b g1 price grid_level) as [ [ r b' ] g' ].
    simpl in H. simpl. destruct H as (Hc & Ht & Hp).
    split; [ exact Hc | split; [ exact Ht | left; exact Hp ] ].
Qed.

Lemma handle_ticker_frame (b : GridBot) (g : Gateway) (msg : TickerMsg) :
  let b' := snd (fst (handle_ticker b g msg)) in
  config_of b' = config_of b /\
  (tracker_of b' = tracker_of b \/
   exists price, ~ price == 0 /\
     tracker_of b' = (Some price, Some (get_grid_zone b price))) /\
  (pnl_state b' = pnl_state b \/
   exists pnl, pnl_state b' = pnl_state (update_pnl_tracking b pnl)).
Proof.
  destruct msg as [ | [ price | ] ]; simpl;
    try (split; [ reflexivity | split; left; reflexivity ]).
  destruct (Py.truthy price) eqn:Htruthy;
    [ | split; [ reflexivity | split; left; reflexivity ] ].
  apply truthy_true_iff in Htruthy.
  destruct (check_grid_crossing_tracks b price)
    as (Hlp & Hlz & Hlv & _ & _ & Ha & Hd & Ht & _).
  assert (Hcfg : config_of (snd (check_grid_crossing b price)) = config_of b).
  { unfold check_grid_crossing.
    destruct (last_price b) as [ lp | ]; [ destruct (Py.truthy lp) | ];
      repeat match goal with
             | |- context [ match ?x with _ => _ end ] => destruct x
             end; reflexivity. }
  destruct (check_grid_crossing b price) as [ crossed b1 ]. simpl in *.
  assert (Htr : tracker_of b1 = (Some price, Some (get_grid_zone b price))).
  { unfold tracker_of. rewrite Hlp, Hlz. reflexivity. }
  assert (Hpnl : pnl_state b1 = pnl_state b).
  { unfold pnl_state. rewrite Ha, Hd, Ht. reflexivity. }
  destruct (Py.truthy_opt crossed).
  - pose proof (execute_grid_trade_frame b1 g price (Py.or_else crossed 0)) as H.
    destruct (execute_grid_trade b1 g price (Py.or_else crossed 0)) as [ b2 g2 ].
    simpl in H. simpl. destruct H as (Hc2 & Ht2 & Hp2).
    split; [ rewrite Hc2; exact Hcfg | ].
    split; [ right; exists price; split; [ exact Htruthy | ];
             rewrite Ht2; exact Htr | ].
    destruct Hp2 as [ Hp2 | (pnl & Hp2) ].
    + left. rewrite Hp2. exact Hpnl.
    + right. exists pnl. rewrite Hp2.
      unfold pnl_state in *.
      destruct (update_pnl_tracking_fields b1 pnl) as (Hd1 & Ht1 & _ & _ & Ha1).
      destruct (update_pnl_tracking_fields b pnl) as (Hd0 & Ht0 & _ & _ & Ha0).
      rewrite Hd1, Ht1, Ha1, Hd0, Ht0, Ha0.
      injection Hpnl as -> -> ->. reflexivity.
  - simpl. split; [ exact Hcfg | ].
    split; [ right; exists price; split; assumption | left; exact Hpnl ].
Qed.

Lemma step_frame (s : GridBot * Gateway) (e : Event) :
  let b := fst s in
  let b' := fst (step s e) in
  config_of b' = config_of b /\
  (tracker_of b' = tracker_of b \/
   exists price, ~ price == 0 /\
     tracker_of b' = (Some price, Some (get_grid_zone b price))) /\
  (pnl_state b' = pnl_state b \/
   exists pnl, pnl_state b' = pnl_state (update_pnl_tracking b pnl)).
Proof.
  destruct s as [ b g ]. destruct e as [ msg | ]; simpl.
  - pose proof (handle_ticker_frame b g msg) as H.
    destruct (handle_ticker b g msg) as [ [ r b' ] g' ]. exact H.
  - pose proof (monitor_position_status_frame b g) as H.
    destruct (monitor_position_status b g) as [ b' g' ]. simpl in *.
    destruct H as (Hc & Ht & Hp).
    split; [ exact Hc | split; [ left; exact Ht | exact Hp ] ].
Qed.

Lemma start_frame (b : GridBot) (g : Gateway) :
  config_of (fst (start b g)) = config_of b /\
  tracker_of (fst (start b g)) = tracker_of b /\
  pnl_state (fst (start b g)) = pnl_state b /\
  current_grid_level (fst (start b g)) = current_grid_level b /\
  conn (fst (start b g)) = conn b.
Proof.
  unfold start. destruct (get_position_info g) as [ [ pos | ] g1 ];
    repeat split; reflexivity.
Qed.

Lemma GridBot_init_frame (config : Config) (disk : option Db) :
  config_of (GridBot_init config disk) =
    (LEVERAGE config, USDT config, sorted (GRID_LEVELS config),
     SL_ROE config, TP_ROE config, qtyStep config, minOrderQty config) /\
  tracker_of (GridBot_init config disk) = (None, None) /\
  current_position (GridBot_init config disk) = None.
Proof.
  unfold GridBot_init, load_previous_state, init_database.
  destruct disk as [ db | ]; [ destruct (bot_state db) eqn:Hrow | ];
    simpl; try rewrite Hrow; repeat split; reflexivity.
Qed.

Lemma get_grid_zone_same_levels (b b' : GridBot) (p : Q) :
  config_of b' = config_of b -> get_grid_zone b' p = get_grid_zone b p.
Proof.
  intros H. unfold config_of in H.
  assert (Hl : grid_levels b' = grid_levels b) by congruence.
  unfold get_grid_zone. rewrite Hl. reflexivity.
Qed.

Lemma run_config (events : list Event) (s : GridBot * Gateway) :
  config_of (fst (run s events)) = config_of (fst s).
Proof.
  unfold run. revert s.
  induction events as [ | e events IH ]; intros s; simpl; [ reflexivity | ].
  rewrite IH. destruct (step_frame s e) as (Hc & _). exact Hc.
Qed.

(** X4. The configuration is fixed by the constructor: after start-up and
    any sequence of ticker messages and polls the bot still holds the
    leverage, base stake, ROE settings and lot-size filter it was given,
    and its grid levels are the configured ones in ascending order. *)
Theorem configuration_is_immutable
    (config : Config) (disk : option Db) (g : Gateway) (events : list Event) :
  let b := fst (run (start (GridBot_init config disk) g) events) in
  config_of b =
    (LEVERAGE config, USDT config, sorted (GRID_LEVELS config),
     SL_ROE config, TP_ROE config, qtyStep config, minOrderQty config) /\
  Sorted Qle (grid_levels b) /\
  Permutation (GRID_LEVELS config) (grid_levels b).
Proof.
  cbv zeta. rewrite run_config.
  destruct (start_frame (GridBot_init config disk) g) as (Hc & _).
  destruct (GridBot_init_frame config disk) as (Hi & _).
  rewrite Hc, Hi.
  assert (Hl : grid_levels (fst (run (start (GridBot_init config disk) g) events))
               = sorted (GRID_LEVELS config)).
  { pose proof (run_config events (start (GridBot_init config disk) g)) as H.
    rewrite Hc, Hi in H. unfold config_of in H. congruence. }
  rewrite Hl.
  split; [ reflexivity | ].
  split; [ apply sorted_Sorted | ].
  clear. induction (GRID_LEVELS config) as [ | x l IH ]; simpl.
  - constructor.
  - apply Permutation_trans with (x :: sorted l).
    + constructor. exact IH.
    + clear IH. induction (sorted l) as [ | y rest IHr ]; simpl.
      * apply Permutation_refl.
      * destruct (Py.le x y); [ apply Permutation_refl | ].
        apply Permutation_trans with (y :: x :: rest);
          [ apply perm_swap | constructor; exact IHr ].
Qed.

Lemma run_tracker (events : list Event) (s : GridBot * Gateway) :
  tracker_consistent (fst s) /\ recorded_price_nonzero (fst s) ->
  tracker_consistent (fst (run s events)) /\
  recorded_price_nonzero (fst (run s events)).
Proof.
  unfold run. revert s.
  induction events as [ | e events IH ]; intros s Hinv; simpl; [ exact Hinv | ].
  apply IH. clear IH.
  destruct (step_frame s e) as (Hc & Ht & _).
  destruct Hinv as [ Hcons Hnz ].
  unfold tracker_consistent, recorded_price_nonzero, tracker_of in *.
  destruct Ht as [ Ht | (price & Hp & Ht) ].
  - injection Ht as Hlp Hlz. rewrite Hlp, Hlz. split.
    + destruct (last_price (fst s)) as [ p | ]; [ | exact Hcons ].
      rewrite Hcons. rewrite (get_grid_zone_same_levels _ _ p Hc). reflexivity.
    + exact Hnz.
  - injection Ht as Hlp Hlz. rewrite Hlp, Hlz. split.
    + rewrite (get_grid_zone_same_levels _ _ price Hc). reflexivity.
    + intros p Hsome. injection Hsome as <-. exact Hp.
Qed.

(** X5. At every point of the bot's life the tracker is coherent: it holds
    no price and no zone, or a non-zero price and the zone of that price.
    So from the second accepted tick on, [check_grid_crossing] never
    re-initialises. *)
Theorem tracker_coherent_throughout
    (config : Config) (disk : option Db) (g : Gateway) (events : list Event) :
  let b := fst (run (start (GridBot_init config disk) g) events) in
  tracker_consistent b /\ recorded_price_nonzero b.
Proof.
  cbv zeta. apply run_tracker.
  destruct (start_frame (GridBot_init config disk) g) as (_ & Ht & _).
  destruct (GridBot_init_frame config disk) as (_ & Hi & _).
  rewrite Hi in Ht. unfold tracker_of in Ht. injection Ht as Hlp Hlz.
  unfold tracker_consistent, recorded_price_nonzero.
  rewrite Hlp, Hlz. split; [ reflexivity | discriminate ].
Qed.

(** ** Loss buffer and stake over a run *)

Lemma pnl_state_eq (b b' : GridBot) :
  pnl_state b' = pnl_state b ->
  accumulated_losses b' = accumulated_losses b /\
  daily_pnl b' = daily_pnl b /\ total_trades b' = total_trades b.
Proof.
  unfold pnl_state. intros H. injection H as -> -> ->. repeat split.
Qed.

Lemma run_losses_nonneg (events : list Event) (s : GridBot * Gateway) :
  0 <= accumulated_losses (fst s) ->
  0 <= accumulated_losses (fst (run s events)).
Proof.
  unfold run. revert s.
  induction events as [ | e events IH ]; intros s Hacc; simpl;
    [ exact Hacc | ].
  apply IH. destruct (step_frame s e) as (_ & _ & [ Hp | (pnl & Hp) ]);
    apply pnl_state_eq in Hp; destruct Hp as (Ha & _); rewrite Ha.
  - exact Hacc.
  - apply update_pnl_tracking_nonneg. exact Hacc.
Qed.

(** X6. Starting from a non-negative loss buffer, no sequence of ticker
    messages and polls makes it negative, so the stake of the next trade,
    [base_usdt + accumulated_losses], is never below the base stake. *)
Theorem stake_never_below_base
    (b : GridBot) (g : Gateway) (events : list Event) :
  0 <= accumulated_losses b ->
  let b' := fst (run (b, g) events) in
  0 <= accumulated_losses b' /\
  base_usdt b <= calculate_position_size_with_recovery b'.
Proof.
  intros Hacc b'.
  assert (Hnn : 0 <= accumulated_losses b')
    by (apply (run_losses_nonneg events (b, g)); exact Hacc).
  split; [ exact Hnn | ].
  unfold calculate_position_size_with_recovery.
  assert (Hb : base_usdt b' = base_usdt b).
  { pose proof (run_config events (b, g)) as H. fold b' in H.
    unfold config_of in H. simpl in H. congruence. }
  rewrite Hb. lra.
Qed.

Lemma stake_never_below_base_witness :
  0 <= accumulated_losses (fresh_bot [100]) /\
  0 <= accumulated_losses (fst reversal_run) /\
  base_usdt (fresh_bot [100])
  <= calculate_position_size_with_recovery (fst reversal_run).
Proof.
  assert (H0 : 0 <= accumulated_losses (fresh_bot [100]))
    by (intros H; discriminate H).
  split; [ exact H0 | ].
  pose proof (stake_never_below_base
                (fresh_bot [100])
                (snd (start (fresh_bot [100]) reversal_gateway))
                [Tick (Data (Some 99)); Tick (Data (Some 101));
                 Tick (Data (Some 99))] H0) as H.
  exact H.
Defined.

(** X8. A profit at least as large as the outstanding loss buffer clears
    it: [accumulated_losses] becomes 0 and the next stake is the base stake
    again.  The buffer is assumed non-negative. *)
Theorem profit_covering_buffer_clears_it (b : GridBot) (p : Q) :
  0 <= accumulated_losses b -> accumulated_losses b <= p ->
  accumulated_losses (update_pnl_tracking b p) == 0 /\
  calculate_position_size_with_recovery (update_pnl_tracking b p)
    == base_usdt b.
Proof.
  intros Hacc Hp.
  assert (Hzero : accumulated_losses (update_pnl_tracking b p) == 0).
  { destruct (update_pnl_tracking_fields b p) as (_ & _ & _ & _ & Ha).
    rewrite Ha. unfold Py.max.
    assert (Hp' : Py.lt p 0 = false) by (apply lt_false_iff; lra).
    rewrite Hp'.
    destruct (Py.lt 0 (accumulated_losses b)) eqn:E1;
      [ | apply lt_false_iff in E1; lra ].
    assert (E2 : Py.lt 0 (accumulated_losses b - p) = false)
      by (apply lt_false_iff; lra).
    rewrite E2. reflexivity. }
  split; [ exact Hzero | ].
  unfold calculate_position_size_with_recovery.
  destruct (update_pnl_tracking_frame b p) as (Hc & _).
  assert (Hb : base_usdt (update_pnl_tracking b p) = base_usdt b)
    by (unfold config_of in Hc; congruence).
  rewrite Hb, Hzero. ring.
Qed.

Lemma profit_covering_buffer_clears_it_witness :
  0 <= accumulated_losses (fst reversal_run) /\
  accumulated_losses (fst reversal_run) <= 15 /\
  accumulated_losses (update_pnl_tracking (fst reversal_run) 15) == 0 /\
  calculate_position_size_with_recovery
    (update_pnl_tracking (fst reversal_run) 15)
    == base_usdt (fst reversal_run).
Proof.
  assert (H0 : 0 <= accumulated_losses (fst reversal_run))
    by (intros H; vm_compute in H; discriminate H).
  assert (H2 : accumulated_losses (fst reversal_run) <= 15)
    by (intros H; vm_compute in H; discriminate H).
  split; [ exact H0 | ].
  split; [ exact H2 | ].
  exact (profit_covering_buffer_clears_it (fst reversal_run) 15 H0 H2).
Defined.

(** ** P&L calculator *)

(** The result in terms of the P&L after fees: a loss is multiplied by
    1.03, anything else is returned unchanged. *)
Lemma calculate_exact_pnl_cases (e x s : Q) (sd : string) :
  let raw := if String.eqb sd "Buy" then (x - e) * s else (e - x) * s in
  let a := raw - (s * e * FEE_RATE + s * x * FEE_RATE) in
  (a < 0 /\ calculate_exact_pnl_with_buffer e x s sd == (103 # 100) * a) \/
  (0 <= a /\ calculate_exact_pnl_with_buffer e x s sd == a).
Proof.
  cbv zeta. unfold calculate_exact_pnl_with_buffer.
  set (a := (if String.eqb sd "Buy" then (x - e) * s else (e - x) * s)
            - (s * e * FEE_RATE + s * x * FEE_RATE)).
  destruct (Py.lt a 0) eqn:E;
    [ apply lt_true_iff in E; left | apply lt_false_iff in E; right ];
    (split; [ exact E | ]).
  - rewrite (Qabs_neg a) by (apply Qlt_le_weak; exact E).
    unfold SAFETY_BUFFER. ring.
  - reflexivity.
Qed.

(** X9. A short from [e] to [x] realizes exactly what a long from [x] to
    [e] realizes, for the same size. *)
Theorem short_mirrors_long (e x s : Q) :
  calculate_exact_pnl_with_buffer e x s "Sell"
  == calculate_exact_pnl_with_buffer x e s "Buy".
Proof.
  destruct (calculate_exact_pnl_cases e x s "Sell") as [ [ H1 E1 ] | [ H1 E1 ] ];
    destruct (calculate_exact_pnl_cases x e s "Buy") as [ [ H2 E2 ] | [ H2 E2 ] ];
    simpl in *; rewrite E1, E2;
    set (u := (e - x) * s) in *;
    set (f1 := s * e * FEE_RATE) in *; set (f2 := s * x * FEE_RATE) in *;
    lra.
Qed.

(** X10. With a non-negative size and non-negative prices the realized P&L
    never exceeds the raw price move: fees and the loss buffer only ever
    lower it. *)
Theorem pnl_at_most_raw_move (e x s : Q) (sd : string) :
  0 <= s -> 0 <= e -> 0 <= x ->
  calculate_exact_pnl_with_buffer e x s sd
  <= (if String.eqb sd "Buy" then (x - e) * s else (e - x) * s).
Proof.
  intros Hs He Hx.
  assert (Hf1 : 0 <= s * e * FEE_RATE).
  { apply Qmult_le_0_compat; [ apply Qmult_le_0_compat; assumption | ].
    unfold FEE_RATE. intros H. discriminate H. }
  assert (Hf2 : 0 <= s * x * FEE_RATE).
  { apply Qmult_le_0_compat; [ apply Qmult_le_0_compat; assumption | ].
    unfold FEE_RATE. intros H. discriminate H. }
  destruct (calculate_exact_pnl_cases e x s sd) as [ [ H E ] | [ H E ] ];
    rewrite E; clear E;
    set (raw := if String.eqb sd "Buy" then (x - e) * s else (e - x) * s) in *;
    set (f1 := s * e * FEE_RATE) in *; set (f2 := s * x * FEE_RATE) in *;
    lra.
Qed.

Lemma pnl_at_most_raw_move_witness :
  0 <= 1 /\ 0 <= 100 /\ 0 <= 110 /\
  calculate_exact_pnl_with_buffer 100 110 1 "Buy" <= (110 - 100) * 1.
Proof.
  assert (H1 : 0 <= 1) by (intros H; discriminate H).
  assert (H2 : 0 <= 100) by (intros H; discriminate H).
  assert (H3 : 0 <= 110) by (intros H; discriminate H).
  split; [ exact H1 | ].
  split; [ exact H2 | ].
  split; [ exact H3 | ].
  exact (pnl_at_most_raw_move 100 110 1 "Buy" H1 H2 H3).
Defined.



(** ** Quantities and protective prices *)

Lemma Qtrunc_floor (r : Q) : 0 <= r -> Qtrunc r = Qfloor r.
Proof.
  destruct r as [ n d ]. unfold Qle, Qtrunc, Qfloor. simpl. intros H.
  apply Z.quot_div_nonneg; lia.
Qed.

Lemma Qdiv_nonneg (a c : Q) : 0 <= a -> 0 < c -> 0 <= a / c.
Proof.
  intros Ha Hc. apply Qle_shift_div_l; [ exact Hc | ].
  rewrite Qmult_0_l. exact Ha.
Qed.

Lemma Qdiv_cancel (a c : Q) : 0 < c -> a / c * c == a.
Proof.
  intros Hc. field. intros H. rewrite H in Hc. exact (Qlt_irrefl 0 Hc).
Qed.

Lemma nonzero_of_pos (c : Q) : 0 < c -> Qeq_bool c 0 = false.
Proof.
  intros Hc. destruct (Qeq_bool c 0) eqn:E; [ | reflexivity ].
  apply Qeq_bool_iff in E. rewrite E in Hc. exfalso. exact (Qlt_irrefl 0 Hc).
Qed.

(** X13. [round_down] within the precision of the source.  Let the step
    be positive and have [d >= 1] decimals (the step times [10^d] is a
    whole number), and let the non-negative value, written with [d]
    decimals, have at most 15 digits (the value times [10^d] is below
    [10^15]), so that neither the 18-digit decimal context nor the
    conversion back to a float interferes.  Then [round_down] returns a
    non-negative whole multiple of the step that is at most the value and
    less than one step below it. *)
Theorem round_down_bounds_within_precision
    (value step : Q) (d : nat) (n : Z) :
  0 <= value -> 0 < step ->
  (1 <= d)%nat ->
  step * inject_Z (10 ^ Z.of_nat d) == inject_Z n ->
  value * inject_Z (10 ^ Z.of_nat d) < inject_Z (10 ^ 15) ->
  exists q k,
    round_down value step = Return q /\
    q == inject_Z k * step /\ (0 <= k)%Z /\
    q <= value /\ value < q + step.
Proof.
  intros Hv Hs _ _ _. unfold round_down. rewrite (nonzero_of_pos step Hs).
  pose proof (Qdiv_nonneg value step Hv Hs) as Hr.
  rewrite (Qtrunc_floor _ Hr).
  exists (inject_Z (Qfloor (value / step)) * step), (Qfloor (value / step)).
  split; [ reflexivity | ].
  split; [ reflexivity | ].
  split.
  { assert (H0 : Qfloor 0 = 0%Z) by reflexivity.
    rewrite <- H0. apply Qfloor_resp_le. exact Hr. }
  pose proof (Qfloor_le (value / step)) as Hlo.
  pose proof (Qlt_floor (value / step)) as Hhi.
  pose proof (Qdiv_cancel value step Hs) as Hc.
  split.
  - rewrite <- Hc at 2. apply Qmult_le_r; assumption.
  - assert (Hm : value / step * step
                 < inject_Z (Qfloor (value / step) + 1) * step)
      by (apply Qmult_lt_r; assumption).
    rewrite Hc in Hm. rewrite inject_Z_plus in Hm.
    setoid_replace ((inject_Z (Qfloor (value / step)) + inject_Z 1) * step)
      with (inject_Z (Qfloor (value / step)) * step + step) in Hm by ring.
    exact Hm.
Qed.

Lemma round_down_bounds_within_precision_witness :
  0 <= 99 # 100 /\ 0 < 1 # 10 /\ (1 <= 1)%nat /\
  (1 # 10) * inject_Z (10 ^ Z.of_nat 1) == inject_Z 1 /\
  (99 # 100) * inject_Z (10 ^ Z.of_nat 1) < inject_Z (10 ^ 15) /\
  exists q k,
    round_down (99 # 100) (1 # 10) = Return q /\
    q == inject_Z k * (1 # 10) /\ (0 <= k)%Z /\
    q <= 99 # 100 /\ 99 # 100 < q + (1 # 10).
Proof.
  assert (H1 : 0 <= 99 # 100) by (intros H; discriminate H).
  assert (H2 : 0 < 1 # 10) by reflexivity.
  assert (H3 : (1 <= 1)%nat) by apply le_n.
  assert (H4 : (1 # 10) * inject_Z (10 ^ Z.of_nat 1) == inject_Z 1)
    by reflexivity.
  assert (H5 : (99 # 100) * inject_Z (10 ^ Z.of_nat 1) < inject_Z (10 ^ 15))
    by reflexivity.
  split; [ exact H1 | ].
  split; [ exact H2 | ].
  split; [ exact H3 | ].
  split; [ exact H4 | ].
  split; [ exact H5 | ].
  exact (round_down_bounds_within_precision
           (99 # 100) (1 # 10) 1 1 H1 H2 H3 H4 H5).
Defined.

(** X15. For a positive price, positive ROE percentages and a positive
    leverage, the stop-loss and take-profit prices bracket the entry price
    on the right sides: below and above it for a buy, above and below it
    for anything else. *)
Theorem sl_tp_prices_bracket (sd : string) (price sl_roe tp_roe lev : Q) :
  0 < price -> 0 < sl_roe -> 0 < tp_roe -> 0 < lev ->
  exists sl tp,
    sl_tp_prices sd price sl_roe tp_roe lev = Return (sl, tp) /\
    (if String.eqb sd "Buy"
     then sl < price /\ price < tp
     else tp < price /\ price < sl).
Proof.
  intros Hp Hsl Htp Hlev.
  unfold sl_tp_prices, py_div. rewrite (nonzero_of_pos lev Hlev). simpl.
  assert (Hs : 0 < sl_roe / 100 / lev).
  { apply Qlt_shift_div_l; [ exact Hlev | ]. rewrite Qmult_0_l.
    apply Qlt_shift_div_l; [ reflexivity | ]. rewrite Qmult_0_l. exact Hsl. }
  assert (Ht : 0 < tp_roe / 100 / lev).
  { apply Qlt_shift_div_l; [ exact Hlev | ]. rewrite Qmult_0_l.
    apply Qlt_shift_div_l; [ reflexivity | ]. rewrite Qmult_0_l. exact Htp. }
  set (s := sl_roe / 100 / lev) in *. set (t := tp_roe / 100 / lev) in *.
  pose proof (Qmult_lt_0_compat price s Hp Hs) as Hps.
  pose proof (Qmult_lt_0_compat price t Hp Ht) as Hpt.
  assert (E1 : price * (1 - s) == price - price * s) by ring.
  assert (E2 : price * (1 + t) == price + price * t) by ring.
  assert (E3 : price * (1 + s) == price + price * s) by ring.
  assert (E4 : price * (1 - t) == price - price * t) by ring.
  destruct (String.eqb sd "Buy").
  - exists (price * (1 - s)), (price * (1 + t)).
    split; [ reflexivity | ]. rewrite E1, E2. split; lra.
  - exists (price * (1 + s)), (price * (1 - t)).
    split; [ reflexivity | ]. rewrite E3, E4. split; lra.
Qed.

Lemma sl_tp_prices_bracket_witness :
  0 < 11 /\ 0 < 50 /\ 0 < 100 /\ 0 < 10 /\
  exists sl tp,
    sl_tp_prices "Buy" 11 50 100 10 = Return (sl, tp) /\
    sl < 11 /\ 11 < tp.
Proof.
  assert (H1 : 0 < 11) by reflexivity.
  assert (H2 : 0 < 50) by reflexivity.
  assert (H3 : 0 < 100) by reflexivity.
  assert (H4 : 0 < 10) by reflexivity.
  split; [ exact H1 | ].
  split; [ exact H2 | ].
  split; [ exact H3 | ].
  split; [ exact H4 | ].
  exact (sl_tp_prices_bracket "Buy" 11 50 100 10 H1 H2 H3 H4).
Defined.

(** ** Transitions *)

Lemma get_price_orders (g : Gateway) :
  orders (snd (get_price g)) = orders g /\
  position_answers (snd (get_price g)) = position_answers g.
Proof.
  unfold get_price. destruct (price_answers g); split; reflexivity.
Qed.

Lemma get_position_info_orders (g : Gateway) :
  orders (snd (get_position_info g)) = orders g /\
  price_answers (snd (get_position_info g)) = price_answers g.
Proof.
  unfold get_position_info. destruct (position_answers g); split; reflexivity.
Qed.

Lemma calculate_position_size_orders (b : GridBot) (g : Gateway) (usdt : Q) :
  orders (snd (calculate_position_size b g usdt)) = orders g.
Proof.
  unfold calculate_position_size.
  pose proof (get_price_orders g) as [ H _ ].
  destruct (get_price g) as [ p g1 ]. simpl in H.
  destruct (Py.truthy_opt p); exact H.
Qed.

Lemma calculate_position_size_order_answers
    (b : GridBot) (g : Gateway) (usdt : Q) :
  order_answers (snd (calculate_position_size b g usdt)) = order_answers g.
Proof.
  unfold calculate_position_size.
  pose proof (get_price_order_answers g) as H.
  destruct (get_price g) as [ p g1 ]. simpl in H.
  destruct (Py.truthy_opt p); exact H.
Qed.

(** X16. What [open_grid_position] can do.  Either the bot is left exactly
    as it was: no order was sent (no quantity, or a failing computation),
    or one order was sent and the exchange answered it with an error.  Or
    exactly one order was sent and the exchange accepted it, and then: the
    order id of the answer is recorded; the order is a buy when the price
    is above the crossed level and a sell otherwise; the recorded position
    has the side and quantity of that order and the tick price as entry
    price; the grid level is the crossed level; the P&L state is
    untouched; and the database, when there is one, gains one trade record
    with the stake and a P&L of 0 while its state row is not rewritten. *)
Theorem open_grid_position_outcome
    (b : GridBot) (g : Gateway) (price grid_level : Q) :
  let b' := snd (fst (open_grid_position b g price grid_level)) in
  let g' := snd (open_grid_position b g price grid_level) in
  (b' = b /\
   (orders g' = orders g \/
    ((exists o, orders g' = orders g ++ [o]) /\
     is_error (next_order_answer g) = true))) \/
  (exists o order_id,
     orders g' = orders g ++ [o] /\
     order_answers g = OrderOk order_id :: order_answers g' /\
     current_order_id b' = order_id /\
     order_side o = (if Py.lt grid_level price then "Buy" else "Sell")%string /\
     current_position b' =
       Some (mkPosition (order_side o) (order_qty o) price) /\
     current_grid_level b' = Some grid_level /\
     pnl_state b' = pnl_state b /\
     conn b' =
       match conn b with
       | Some db =>
           Some (mkDb (bot_state db)
                      (trades db ++
                       [mkTrade (order_side o) grid_level
                                (base_usdt b + accumulated_losses b) 0
                                (accumulated_losses b)]))
       | None => None
       end).
Proof.
  cbv zeta. unfold open_grid_position.
  pose proof (calculate_position_size_orders b g
                (calculate_position_size_with_recovery b)) as Ho.
  pose proof (calculate_position_size_order_answers b g
                (calculate_position_size_with_recovery b)) as Ha.
  destruct (calculate_position_size _ _ _) as [ [ qty_opt | ] g1 ];
    simpl in Ho, Ha; [ | left; split; [ reflexivity | left; exact Ho ] ].
  destruct (Py.truthy_opt qty_opt);
    [ | left; split; [ reflexivity | left; exact Ho ] ].
  destruct (sl_tp_prices _ _ _ _ _) as [ [ sl tp ] | ];
    [ | left; split; [ reflexivity | left; exact Ho ] ].
  unfold place_order, client_place_order.
  assert (Hnext : next_order_answer g1 = next_order_answer g)
    by (apply next_order_answer_ext; exact Ha).
  destruct (next_order_answer g1) as [ order_id | msg ] eqn:Hans; simpl.
  - right. eexists. exists order_id. rewrite Ho.
    split; [ reflexivity | ].
    split.
    { unfold next_order_answer in Hans. rewrite <- Ha.
      destruct (order_answers g1) as [ | a rest ]; [ discriminate | ].
      simpl. congruence. }
    split.
    { match goal with
      | |- context [ log_trade ?x ?s ?gl ?u ?p ] =>
          destruct (log_trade_frame x s gl u p) as (_ & _ & _ & _ & _ & Hid)
      end.
      rewrite Hid. reflexivity. }
    split; [ reflexivity | ].
    unfold log_trade, calculate_position_size_with_recovery. simpl.
    destruct (conn b) as [ db | ] eqn:Hc; simpl; rewrite ?Hc;
      repeat split; reflexivity.
  - left. split; [ reflexivity | ].
    right. split; [ eexists; rewrite Ho; reflexivity | ].
    rewrite <- Hnext. reflexivity.
Qed.

Lemma app_one_neq {A : Type} (l : list A) (x : A) : l <> l ++ [x].
Proof.
  intros H. apply (f_equal (@length A)) in H.
  rewrite length_app in H. simpl in H. lia.
Qed.

Lemma open_grid_position_sent
    (b : GridBot) (g : Gateway) (price grid_level : Q) :
  let g' := snd (open_grid_position b g price grid_level) in
  orders g' = orders g \/
  exists q tp sl,
    orders g' = orders g ++
      [mkOrder (if Py.lt grid_level price then "Buy" else "Sell")%string
               q tp sl] /\
    min_qty b <= q /\ Py.truthy q = true.
Proof.
  cbv zeta. unfold open_grid_position, calculate_position_size.
  pose proof (get_price_orders g) as [ Ho _ ].
  destruct (get_price g) as [ pr g1 ]. simpl in Ho.
  destruct (Py.truthy_opt pr); [ | left; exact Ho ].
  destruct (round_down _ _) as [ qty | ]; cbn [bind fst snd];
    [ | left; exact Ho ].
  set (q := if Py.lt qty (min_qty b) then min_qty b else qty).
  assert (Hmin : min_qty b <= q).
  { subst q. destruct (Py.lt qty (min_qty b)) eqn:E;
      [ apply Qle_refl | apply lt_false_iff in E; exact E ]. }
  change (Py.truthy_opt (Some q)) with (Py.truthy q).
  change (Py.or_else (Some q) 0) with (if Py.truthy q then q else 0).
  destruct (Py.truthy q) eqn:Hq; [ | left; exact Ho ].
  destruct (sl_tp_prices _ _ _ _ _) as [ [ sl tp ] | ]; [ | left; exact Ho ].
  unfold place_order, client_place_order.
  right. exists q, tp, sl.
  split; [ | split; [ exact Hmin | exact Hq ] ].
  destruct (next_order_answer g1); cbn [fst snd orders]; rewrite Ho;
    reflexivity.
Qed.

(** X14. An order sent by [open_grid_position] is never below the minimum
    order quantity and never zero, and it is a buy exactly when the price
    is above the crossed level. *)
Theorem opening_order_at_least_minimum
    (b : GridBot) (g : Gateway) (price grid_level : Q) (o : Order) :
  orders (snd (open_grid_position b g price grid_level)) = orders g ++ [o] ->
  min_qty b <= order_qty o /\ ~ order_qty o == 0 /\
  order_side o = (if Py.lt grid_level price then "Buy" else "Sell")%string.
Proof.
  intros Hsent.
  destruct (open_grid_position_sent b g price grid_level)
    as [ Hnone | (q & tp & sl & Hone & Hmin & Hq) ].
  - rewrite Hnone in Hsent. exfalso. exact (app_one_neq _ _ Hsent).
  - rewrite Hone in Hsent. apply app_inv_head in Hsent.
    injection Hsent as <-. simpl.
    split; [ exact Hmin | ].
    split; [ apply truthy_true_iff; exact Hq | reflexivity ].
Qed.

Lemma opening_order_at_least_minimum_witness :
  let b := snd (check_grid_crossing
                  (snd (check_grid_crossing (fresh_bot [10]) 9)) 11) in
  let g := mkGateway [Some 11] [] [OrderOk None] [] in
  exists o,
    orders (snd (open_grid_position b g 11 10)) = orders g ++ [o] /\
    min_qty b <= order_qty o /\ ~ order_qty o == 0 /\
    order_side o = "Buy"%string.
Proof.
  cbv zeta. eexists.
  assert (H : forall o,
            orders (snd (open_grid_position
                           (snd (check_grid_crossing
                                   (snd (check_grid_crossing (fresh_bot [10]) 9)) 11))
                           (mkGateway [Some 11] [] [OrderOk None] []) 11 10))
            = orders (mkGateway [Some 11] [] [OrderOk None] []) ++ [o] ->
            orders (snd (open_grid_position
                           (snd (check_grid_crossing
                                   (snd (check_grid_crossing (fresh_bot [10]) 9)) 11))
                           (mkGateway [Some 11] [] [OrderOk None] []) 11 10))
            = orders (mkGateway [Some 11] [] [OrderOk None] []) ++ [o] /\
            min_qty (snd (check_grid_crossing
                            (snd (check_grid_crossing (fresh_bot [10]) 9)) 11))
            <= order_qty o /\ ~ order_qty o == 0 /\
            order_side o = "Buy"%string).
  { intros o Ho. split; [ exact Ho | ].
    exact (opening_order_at_least_minimum _ _ 11 10 o Ho). }
  apply H. vm_compute. reflexivity.
Defined.

Lemma reverse_position_error
    (g : Gateway) (qty : Q) (sd : string) (sl tp lev : Q) :
  is_error (next_order_answer g) = true ->
  forall order_id,
    fst (reverse_position g qty sd sl tp lev) <> Return (OrderOk order_id).
Proof.
  intros Herr order_id. unfold reverse_position.
  pose proof (get_price_order_answers g) as Hans.
  destruct (get_price g) as [ p g1 ]. simpl in Hans.
  destruct (Py.truthy_opt p); [ | simpl; discriminate ].
  destruct (sl_tp_prices _ _ _ _ _) as [ [ sl_price tp_price ] | ];
    [ | simpl; discriminate ].
  unfold client_place_order. simpl.
  rewrite (next_order_answer_ext g g1 Hans).
  destruct (next_order_answer g); [ discriminate | discriminate ].
Qed.

(** X17. A reversal whose order is refused is not rolled back: once the
    price for the P&L was obtained, the bot is left exactly as
    [update_pnl_tracking] leaves it, with the P&L of the closed leg booked
    (and saved) while the recorded position, the grid level and the trade
    log stay as they were.  Without a price nothing changes. *)
Theorem failed_reversal_keeps_booked_pnl
    (b : GridBot) (g : Gateway) (pos : Position) (grid_level : Q) :
  is_error (next_order_answer g) = true ->
  let b' := snd (fst (execute_reversal b g pos grid_level)) in
  match fst (get_price g) with
  | Some p =>
      if Py.truthy p then
        b' = update_pnl_tracking b
               (calculate_exact_pnl_with_buffer
                  (entry_price pos) p (size pos) (side pos)) /\
        current_position b' = current_position b /\
        current_grid_level b' = current_grid_level b /\
        trade_log b' = trade_log b
      else b' = b
  | None => b' = b
  end.
Proof.
  intros Herr. cbv zeta. unfold execute_reversal.
  pose proof (get_price_order_answers g) as Hans.
  destruct (get_price g) as [ [ p | ] g1 ]; simpl in *; [ | reflexivity ].
  destruct (Py.truthy p); [ | reflexivity ].
  assert (Herr1 : is_error (next_order_answer g1) = true)
    by (rewrite (next_order_answer_ext g g1 Hans); exact Herr).
  set (pnl := calculate_exact_pnl_with_buffer
                (entry_price pos) p (size pos) (side pos)).
  set (b1 := update_pnl_tracking b pnl).
  pose proof (reverse_position_error g1 (size pos) (side pos)
                (sl_roe b1) (tp_roe b1) (leverage b1) Herr1) as Hno.
  destruct (update_pnl_tracking_fields b pnl) as (_ & _ & Hg & Hp & _).
  destruct (update_pnl_tracking_frame b pnl) as (_ & _ & Hl & _).
  fold b1 in Hg, Hp, Hl.
  destruct (reverse_position _ _ _ _ _ _) as [ [ [ order_id | msg ] | ] g2 ];
    simpl in *.
  - exfalso. apply (Hno order_id). reflexivity.
  - repeat split; assumption.
  - repeat split; assumption.
Qed.

Lemma failed_reversal_keeps_booked_pnl_witness :
  let b := fst (run (start (fresh_bot [100]) reversal_gateway)
                    [Tick (Data (Some 99)); Tick (Data (Some 101))]) in
  let g := mkGateway [Some 99; Some 99] [] [OrderError "rejected"%string] [] in
  let b' := snd (fst (execute_reversal b g (mkPosition "Buy" (9 # 10) 101) 100)) in
  is_error (next_order_answer g) = true /\
  accumulated_losses b == 0 /\
  accumulated_losses b' == 195597 # 100000 /\
  current_position b' = current_position b /\
  trade_log b' = trade_log b.
Proof.
  cbv zeta.
  pose proof (failed_reversal_keeps_booked_pnl
    (fst (run (start (fresh_bot [100]) reversal_gateway)
              [Tick (Data (Some 99)); Tick (Data (Some 101))]))
    (mkGateway [Some 99; Some 99] [] [OrderError "rejected"%string] [])
    (mkPosition "Buy" (9 # 10) 101) 100 eq_refl) as H.
  cbv zeta in H. simpl fst in H at 1.
  change (Py.truthy 99) with true in H. cbv iota in H.
  destruct H as (_ & Hp & _ & Hl).
  split; [ reflexivity | ].
  split; [ vm_compute; reflexivity | ].
  split; [ vm_compute; reflexivity | ].
  split; [ exact Hp | exact Hl ].
Defined.

(** X18. Hold.  While the exchange reports a position, a tick whose
    crossed level (if any) is not the recorded grid level changes nothing
    but the tracker: no order is sent, and the position, the grid level,
    the P&L state and the database stay as they were.  In particular a
    position adopted at start-up without a grid level is never reversed. *)
Theorem tick_holds_position
    (b : GridBot) (g : Gateway) (price : Q) (pos : Position) :
  fst (get_position_info g) = Some pos ->
  (forall gl m, current_grid_level b = Some gl ->
                fst (check_grid_crossing b price) = Some m -> ~ m == gl) ->
  let b' := snd (fst (handle_ticker b g (Data (Some price)))) in
  let g' := snd (handle_ticker b g (Data (Some price))) in
  orders g' = orders g /\
  current_position b' = current_position b /\
  current_grid_level b' = current_grid_level b /\
  pnl_state b' = pnl_state b /\
  conn b' = conn b.
Proof.
  intros Hpos Hother. cbv zeta. simpl.
  destruct (Py.truthy price); [ | repeat split; reflexivity ].
  destruct (check_grid_crossing_tracks b price)
    as (_ & _ & _ & Hp & Hg & Ha & Hd & Ht & Hc).
  assert (Hpnl : pnl_state (snd (check_grid_crossing b price)) = pnl_state b)
    by (unfold pnl_state; rewrite Ha, Hd, Ht; reflexivity).
  destruct (check_grid_crossing b price) as [ crossed b1 ]. simpl in *.
  destruct crossed as [ m | ]; simpl; [ | repeat split; assumption ].
  destruct (Py.truthy m) eqn:Hm; [ | repeat split; assumption ].
  unfold execute_grid_trade.
  pose proof (get_position_info_orders g) as [ Ho _ ].
  destruct (get_position_info g) as [ api g1 ]. simpl in Hpos, Ho. subst api.
  assert (Hno : should_reverse_position b1 price (if Py.truthy m then m else 0) pos
                = false).
  { unfold should_reverse_position. rewrite Hg, Hm.
    destruct (current_grid_level b) as [ gl | ] eqn:Hgl; [ | reflexivity ].
    destruct (Qeq_bool m gl) eqn:E; [ | reflexivity ].
    apply Qeq_bool_iff in E. exfalso.
    exact (Hother gl m eq_refl eq_refl E). }
  rewrite Hm in Hno. rewrite Hno. simpl. repeat split; assumption.
Qed.

Lemma tick_holds_position_witness :
  let b := fst (start (fresh_bot [10; 20])
                  (mkGateway [] [Some (mkPosition "Buy" 1 15)] [] [])) in
  let b1 := snd (check_grid_crossing b 15) in
  let g := mkGateway [Some 25] [Some (mkPosition "Buy" 1 15)] [OrderOk None] [] in
  current_position b1 <> None /\ current_grid_level b1 = None /\
  fst (check_grid_crossing b1 25) = Some 20 /\
  orders (snd (handle_ticker b1 g (Data (Some 25)))) = [] /\
  current_grid_level (snd (fst (handle_ticker b1 g (Data (Some 25))))) = None.
Proof.
  cbv zeta.
  split; [ vm_compute; discriminate | ].
  split; [ reflexivity | ].
  split; [ reflexivity | ].
  destruct (tick_holds_position
    (snd (check_grid_crossing
            (fst (start (fresh_bot [10; 20])
                    (mkGateway [] [Some (mkPosition "Buy" 1 15)] [] []))) 15))
    (mkGateway [Some 25] [Some (mkPosition "Buy" 1 15)] [OrderOk None] [])
    25 (mkPosition "Buy" 1 15) eq_refl)
    as (Ho & _ & Hg & _).
  - intros gl m Hgl. vm_compute in Hgl. discriminate Hgl.
  - split; [ rewrite Ho; reflexivity | rewrite Hg; reflexivity ].
Defined.

(** X19. The poll.  With a position on record: if the exchange still
    reports one, or reports none but no price can be fetched, the bot is
    unchanged (the closure is found again at the next poll).  If the
    exchange reports none and a price [p] is fetched, the position, the
    grid level and the order id are cleared; the P&L of the position
    against [p] is booked; the state row saved during the booking still
    carries the grid level of the closed position; and one record
    [<side>-CLOSED] with stake 0 is appended to the trade log.  A poll
    never sends an order. *)
Theorem monitor_position_status_outcome
    (b : GridBot) (g : Gateway) (pos : Position) :
  current_position b = Some pos ->
  let b' := fst (monitor_position_status b g) in
  let g' := snd (monitor_position_status b g) in
  orders g' = orders g /\
  match fst (get_position_info g),
        fst (get_price (snd (get_position_info g))) with
  | Some _, _ => b' = b
  | None, None => b' = b
  | None, Some p =>
      if Py.truthy p then
        let pnl := calculate_exact_pnl_with_buffer
                     (entry_price pos) p (size pos) (side pos) in
        let b1 := update_pnl_tracking b pnl in
        current_position b' = None /\
        current_grid_level b' = None /\
        current_order_id b' = None /\
        pnl_state b' = pnl_state b1 /\
        conn b' =
          match conn b1 with
          | Some db =>
              Some (mkDb (bot_state db)
                         (trades db ++
                          [mkTrade (side pos ++ "-CLOSED")
                                   (Py.or_else (current_grid_level b) 0) 0 pnl
                                   (accumulated_losses b1)]))
          | None => None
          end /\
        (ledger_available b ->
         exists row, (match conn b' with
                      | Some db => bot_state db
                      | None => None
                      end) = Some row /\
                     col_current_grid_level row = current_grid_level b)
      else b' = b
  end.
Proof.
  intros Hpos. cbv zeta. unfold monitor_position_status, detect_position_closure.
  rewrite Hpos.
  pose proof (get_position_info_orders g) as [ Ho1 _ ].
  destruct (get_position_info g) as [ [ api | ] g1 ]; simpl in *;
    [ split; [ exact Ho1 | reflexivity ] | ].
  pose proof (get_price_orders g1) as [ Ho2 _ ].
  destruct (get_price g1) as [ [ p | ] g2 ]; simpl in *;
    [ | split; [ congruence | reflexivity ] ].
  destruct (Py.truthy p); simpl; [ | split; [ congruence | reflexivity ] ].
  split; [ congruence | ].
  set (pnl := calculate_exact_pnl_with_buffer
                (entry_price pos) p (size pos) (side pos)).
  destruct (update_pnl_tracking_fields b pnl) as (_ & _ & Hg & _).
  set (b1 := update_pnl_tracking b pnl) in *.
  rewrite Hg.
  destruct (log_trade_frame b1 (side pos ++ "-CLOSED")
              (Py.or_else (current_grid_level b) 0) 0 pnl)
    as (_ & _ & Hp & _).
  split; [ reflexivity | ].
  split; [ reflexivity | ].
  split; [ reflexivity | ].
  split; [ exact Hp | ].
  assert (Hconn :
    conn (log_trade b1 (side pos ++ "-CLOSED")
            (Py.or_else (current_grid_level b) 0) 0 pnl) =
    match conn b1 with
    | Some db =>
        Some (mkDb (bot_state db)
                   (trades db ++
                    [mkTrade (side pos ++ "-CLOSED")
                             (Py.or_else (current_grid_level b) 0) 0 pnl
                             (accumulated_losses b1)]))
    | None => None
    end).
  { unfold log_trade. destruct (conn b1) eqn:Hc; simpl; rewrite ?Hc; reflexivity. }
  split; [ exact Hconn | ].
  intros Hav. simpl. rewrite Hconn.
  subst b1. unfold update_pnl_tracking. cbv zeta.
  match goal with
  | |- context [ save_state ?x ] =>
      assert (Hcx : conn x = conn b)
        by (destruct (Py.lt pnl 0); [ | destruct (Py.lt 0 _) ]; reflexivity);
      assert (Hgx : current_grid_level x = current_grid_level b)
        by (destruct (Py.lt pnl 0); [ | destruct (Py.lt 0 _) ]; reflexivity);
      set (b3 := x) in *
  end.
  unfold ledger_available in Hav. unfold save_state. rewrite Hcx.
  destruct (conn b) as [ db | ]; [ | contradiction ].
  destruct (bot_state db) as [ row | ]; [ | congruence ].
  simpl. eexists. split; [ reflexivity | ]. simpl. exact Hgx.
Qed.

Lemma monitor_position_status_outcome_witness :
  let b := fst (run (start (fresh_bot [10])
                       (mkGateway [Some 11] [] [OrderOk None] []))
                    [Tick (Data (Some 9)); Tick (Data (Some 11))]) in
  let g := mkGateway [Some 12] [] [] [] in
  current_position b = Some (mkPosition "Buy" (90 # 10) 11) /\
  current_position (fst (monitor_position_status b g)) = None /\
  orders (snd (monitor_position_status b g)) = orders g.
Proof.
  cbv zeta.
  assert (Hpos :
    current_position
      (fst (run (start (fresh_bot [10])
                   (mkGateway [Some 11] [] [OrderOk None] []))
                [Tick (Data (Some 9)); Tick (Data (Some 11))]))
    = Some (mkPosition "Buy" (90 # 10) 11)) by (vm_compute; reflexivity).
  destruct (monitor_position_status_outcome _ (mkGateway [Some 12] [] [] [])
              _ Hpos) as [ Ho H ].
  simpl fst in H at 1 2. change (Py.truthy 12) with true in H. cbv iota in H.
  destruct H as (Hp & _).
  split; [ exact Hpos | ].
  split; [ exact Hp | exact Ho ].
Defined.

(** ** Orders and the trade log over a run *)

Lemma set_fields_trade_log (b : GridBot) :
  (forall v, trade_log (set_current_order_id v b) = trade_log b) /\
  (forall v, trade_log (set_current_position v b) = trade_log b) /\
  (forall v, trade_log (set_current_grid_level v b) = trade_log b).
Proof. repeat split; reflexivity. Qed.

Lemma open_grid_position_grows
    (b : GridBot) (g : Gateway) (price grid_level : Q) :
  grows_by_at_most_one (trade_log b)
    (trade_log (snd (fst (open_grid_position b g price grid_level)))) /\
  grows_by_at_most_one (orders g)
    (orders (snd (open_grid_position b g price grid_level))).
Proof.
  unfold open_grid_position.
  pose proof (calculate_position_size_orders b g
                (calculate_position_size_with_recovery b)) as Ho.
  destruct (calculate_position_size _ _ _) as [ [ qty_opt | ] g1 ];
    simpl in Ho; [ | split; left; [ reflexivity | exact Ho ] ].
  destruct (Py.truthy_opt qty_opt);
    [ | split; left; [ reflexivity | exact Ho ] ].
  destruct (sl_tp_prices _ _ _ _ _) as [ [ sl tp ] | ];
    [ | split; left; [ reflexivity | exact Ho ] ].
  unfold place_order, client_place_order.
  destruct (next_order_answer g1) as [ order_id | msg ]; simpl.
  - split.
    + match goal with
      | |- context [ log_trade ?x ?s ?gl ?u ?p ] =>
          destruct (trade_log_log_trade x s gl u p) as [ H | H ];
          rewrite H
      end.
      * left. reflexivity.
      * right. eexists. reflexivity.
    + right. eexists. rewrite Ho. reflexivity.
  - split; [ left; reflexivity | right; eexists; rewrite Ho; reflexivity ].
Qed.

Lemma execute_reversal_grows
    (b : GridBot) (g : Gateway) (pos : Position) (grid_level : Q) :
  grows_by_at_most_one (trade_log b)
    (trade_log (snd (fst (execute_reversal b g pos grid_level)))) /\
  grows_by_at_most_one (orders g)
    (orders (snd (execute_reversal b g pos grid_level))).
Proof.
  unfold execute_reversal.
  pose proof (get_price_orders g) as [ Ho _ ].
  destruct (get_price g) as [ p g1 ]. simpl in Ho.
  destruct (Py.truthy_opt p); [ | split; left; [ reflexivity | exact Ho ] ].
  cbv zeta.
  match goal with
  | |- context [ update_pnl_tracking ?x ?v ] =>
      destruct (update_pnl_tracking_frame x v) as (_ & _ & Hl & _);
      set (pnl := v) in *; set (b1 := update_pnl_tracking x pnl) in *
  end.
  pose proof (reverse_position_order g1 (size pos) (side pos)
                (sl_roe b1) (tp_roe b1) (leverage b1)) as Hrev.
  destruct (reverse_position _ _ _ _ _ _) as [ [ [ order_id | msg ] | ] g2 ];
    simpl in *;
    (split;
     [ | destruct Hrev as [ Hr | (tp & sl & Hr) ]; rewrite Hr, Ho;
         [ left; reflexivity | right; eexists; reflexivity ] ]).
  - match goal with
    | |- context [ log_trade ?x ?s ?gl ?u ?q ] =>
        assert (Hx : trade_log x = trade_log b) by exact Hl;
        destruct (trade_log_log_trade x s gl u q) as [ H | H ];
        change (grows_by_at_most_one (trade_log b)
                  (trade_log (log_trade x s gl u q)));
        rewrite H, Hx
    end.
    + left. reflexivity.
    + right. eexists. reflexivity.
  - left. exact Hl.
  - left. exact Hl.
Qed.

Lemma monitor_position_status_grows (b : GridBot) (g : Gateway) :
  grows_by_at_most_one (trade_log b)
    (trade_log (fst (monitor_position_status b g))) /\
  orders (snd (monitor_position_status b g)) = orders g.
Proof.
  unfold monitor_position_status, detect_position_closure.
  destruct (current_position b) as [ pos | ];
    [ | split; [ left | ]; reflexivity ].
  pose proof (get_position_info_orders g) as [ Ho1 _ ].
  destruct (get_position_info g) as [ [ api | ] g1 ]; simpl in *;
    [ split; [ left; reflexivity | exact Ho1 ] | ].
  pose proof (get_price_orders g1) as [ Ho2 _ ].
  destruct (get_price g1) as [ p g2 ]. simpl in *.
  destruct (Py.truthy_opt p); cbn [fst snd];
    [ | split; [ left; reflexivity | congruence ] ].
  split; [ | congruence ].
  cbv zeta.
  match goal with
  | |- context [ update_pnl_tracking ?x ?v ] =>
      destruct (update_pnl_tracking_frame x v) as (_ & _ & Hl & _);
      set (pnl := v) in *; set (b1 := update_pnl_tracking x pnl) in *
  end.
  match goal with
  | |- context [ log_trade ?x ?s ?gl ?u ?q ] =>
      destruct (trade_log_log_trade x s gl u q) as [ H | H ];
      change (grows_by_at_most_one (trade_log b)
                (trade_log (log_trade x s gl u q)));
      rewrite H, Hl
  end.
  - left. reflexivity.
  - right. eexists. reflexivity.
Qed.

Lemma step_grows (s : GridBot * Gateway) (e : Event) :
  grows_by_at_most_one (trade_log (fst s)) (trade_log (fst (step s e))) /\
  (if is_tick e
   then grows_by_at_most_one (orders (snd s)) (orders (snd (step s e)))
   else orders (snd (step s e)) = orders (snd s)).
Proof.
  destruct s as [ b g ]. destruct e as [ msg | ]; simpl.
  - destruct msg as [ | [ price | ] ]; simpl;
      try (split; left; reflexivity).
    destruct (Py.truthy price); [ | split; left; reflexivity ].
    destruct (check_grid_crossing_tracks b price)
      as (_ & _ & _ & _ & _ & _ & _ & _ & Hc).
    assert (Hl : trade_log (snd (check_grid_crossing b price)) = trade_log b)
      by (unfold trade_log; rewrite Hc; reflexivity).
    destruct (check_grid_crossing b price) as [ crossed b1 ]. simpl in Hl.
    destruct (Py.truthy_opt crossed);
      [ | simpl; split; left; [ exact Hl | reflexivity ] ].
    unfold execute_grid_trade.
    pose proof (get_position_info_orders g) as [ Ho _ ].
    destruct (get_position_info g) as [ [ pos | ] g1 ]; simpl in Ho.
    + destruct (should_reverse_position _ _ _ _);
        [ | simpl; split; left; [ exact Hl | exact Ho ] ].
      pose proof (execute_reversal_grows b1 g1 pos (Py.or_else crossed 0)) as H.
      destruct (execute_reversal b1 g1 pos (Py.or_else crossed 0))
        as [ [ r b2 ] g2 ]. simpl in *.
      rewrite <- Hl, <- Ho. exact H.
    + pose proof (open_grid_position_grows b1 g1 price (Py.or_else crossed 0)) as H.
      destruct (open_grid_position b1 g1 price (Py.or_else crossed 0))
        as [ [ r b2 ] g2 ]. simpl in *.
      rewrite <- Hl, <- Ho. exact H.
  - pose proof (monitor_position_status_grows b g) as H.
    destruct (monitor_position_status b g) as [ b' g' ]. exact H.
Qed.

Lemma run_grows (events : list Event) (s : GridBot * Gateway) :
  (exists new, trade_log (fst (run s events)) = trade_log (fst s) ++ new /\
               (length new <= length events)%nat) /\
  (exists sent, orders (snd (run s events)) = orders (snd s) ++ sent /\
                (length sent <= length (filter is_tick events))%nat).
Proof.
  unfold run. revert s.
  induction events as [ | e events IH ]; intros s; simpl.
  - split; exists []; rewrite app_nil_r; split; auto.
  - destruct (IH (step s e)) as [ (new & Hn & Hln) (sent & Hs & Hls) ].
    destruct (step_grows s e) as [ Hlog Hord ].
    split.
    + destruct Hlog as [ Hlog | (t & Hlog) ]; rewrite Hlog in Hn.
      * exists new. split; [ exact Hn | lia ].
      * exists (t :: new). rewrite <- app_assoc in Hn.
        split; [ exact Hn | simpl; lia ].
    + destruct (is_tick e); simpl.
      * destruct Hord as [ Hord | (o & Hord) ]; rewrite Hord in Hs.
        -- exists sent. split; [ exact Hs | lia ].
        -- exists (o :: sent). rewrite <- app_assoc in Hs.
           split; [ exact Hs | simpl; lia ].
      * rewrite Hord in Hs. exists sent. split; [ exact Hs | exact Hls ].
Qed.

(** X20. The trade log is append-only: over any sequence of ticker messages
    and polls the log afterwards is the log before with records added at
    the end, at most one per event. *)
Theorem trade_log_append_only
    (b : GridBot) (g : Gateway) (events : list Event) :
  exists new,
    trade_log (fst (run (b, g) events)) = trade_log b ++ new /\
    (length new <= length events)%nat.
Proof.
  exact (proj1 (run_grows events (b, g))).
Qed.

(** X21. Each ticker message makes the bot send at most one order and a
    poll sends none: over a run the orders sent number at most the ticker
    messages received. *)
Theorem at_most_one_order_per_tick
    (b : GridBot) (g : Gateway) (events : list Event) :
  exists sent,
    orders (snd (run (b, g) events)) = orders g ++ sent /\
    (length sent <= length (filter is_tick events))%nat.
Proof.
  exact (proj2 (run_grows events (b, g))).
Qed.

(** ** Restart *)

Lemma GridBot_init_conn (config : Config) (db : Db) :
  conn (GridBot_init config (Some db)) =
    Some (match bot_state db with
          | Some _ => db
          | None => mkDb (Some default_row) (trades db)
          end).
Proof.
  unfold GridBot_init, init_database, load_previous_state.
  destruct (bot_state db) eqn:Hrow; simpl; rewrite ?Hrow; reflexivity.
Qed.

(** X22. Restarting is idempotent and keeps the trade log.  The
    constructor writes to the database in one case only: it inserts the
    state row with the column defaults when the row is missing; a database
    that holds the row is left exactly as it is.  A restart of a restarted
    bot therefore gives the same bot again. *)
Theorem restart_is_idempotent (config : Config) (b : GridBot) :
  restart config (restart config b) = restart config b /\
  trade_log (restart config b) = trade_log b /\
  conn (restart config b) =
    match conn b with
    | Some db =>
        Some (match bot_state db with
              | Some _ => db
              | None => mkDb (Some default_row) (trades db)
              end)
    | None => None
    end.
Proof.
  unfold restart, trade_log.
  destruct (conn b) as [ db | ]; [ | repeat split; reflexivity ].
  rewrite GridBot_init_conn.
  destruct (bot_state db) as [ row | ] eqn:Hrow;
    split; [ reflexivity | | | ]; try (split; reflexivity).
  unfold GridBot_init, init_database, load_previous_state. simpl.
  rewrite Hrow. reflexivity.
Qed.

(** X23. Nothing booked is lost by a crash right after the booking: with
    the database open, a bot restarted on what [update_pnl_tracking] left
    behind has the accumulated losses, the daily P&L, the trade count and
    the grid level that the update produced. *)
Theorem restart_after_update_keeps_pnl
    (config : Config) (b : GridBot) (pnl : Q) :
  ledger_available b ->
  let b1 := update_pnl_tracking b pnl in
  let b' := restart config b1 in
  accumulated_losses b' == accumulated_losses b1 /\
  daily_pnl b' == daily_pnl b1 /\
  total_trades b' = total_trades b1 /\
  current_grid_level b' = current_grid_level b1.
Proof.
  intros Hav. cbv zeta.
  destruct (update_pnl_tracking_fields b pnl) as (Hd & Ht & Hg & _ & Ha).
  rewrite Hd, Ht, Hg, Ha. clear Hd Ht Hg Ha.
  unfold update_pnl_tracking. cbv zeta.
  match goal with
  | |- context [ save_state ?x ] =>
      assert (Hcx : conn x = conn b)
        by (destruct (Py.lt pnl 0); [ | destruct (Py.lt 0 _) ]; reflexivity);
      assert (Hgx : current_grid_level x = current_grid_level b)
        by (destruct (Py.lt pnl 0); [ | destruct (Py.lt 0 _) ]; reflexivity);
      assert (Hdx : daily_pnl x = daily_pnl b + pnl)
        by (destruct (Py.lt pnl 0); [ | destruct (Py.lt 0 _) ]; reflexivity);
      assert (Htx : total_trades x = (total_trades b + 1)%Z)
        by (destruct (Py.lt pnl 0); [ | destruct (Py.lt 0 _) ]; reflexivity);
      assert (Hax : accumulated_losses x =
                    (if Py.lt pnl 0 then accumulated_losses b + Qabs pnl
                     else if Py.lt 0 (accumulated_losses b)
                          then Py.max 0 (accumulated_losses b - pnl)
                          else accumulated_losses b))
        by (destruct (Py.lt pnl 0); [ | destruct (Py.lt 0 _) ]; reflexivity);
      set (b3 := x) in *
  end.
  unfold ledger_available in Hav.
  unfold restart, save_state. rewrite Hcx.
  destruct (conn b) as [ db | ]; [ | contradiction ].
  destruct (bot_state db) as [ row | ]; [ | congruence ].
  unfold GridBot_init, init_database, load_previous_state. simpl.
  rewrite Hgx, Hdx, Htx, Hax.
  split; [ apply or_else_same | ].
  split; [ apply or_else_same | ].
  split; [ apply or_elseZ_same | reflexivity ].
Qed.

Lemma restart_after_update_keeps_pnl_witness :
  let b := fresh_bot [10] in
  let b1 := update_pnl_tracking b (- (104077 # 10000)) in
  ledger_available b /\
  accumulated_losses (restart (config_with_levels [10]) b1) == 104077 # 10000 /\
  total_trades (restart (config_with_levels [10]) b1) = 1%Z.
Proof.
  cbv zeta.
  assert (Hav : ledger_available (fresh_bot [10])) by (vm_compute; discriminate).
  destruct (restart_after_update_keeps_pnl
              (config_with_levels [10]) (fresh_bot [10])
              (- (104077 # 10000)) Hav) as (Ha & _ & Ht & _).
  split; [ exact Hav | ].
  split; [ rewrite Ha; vm_compute; reflexivity | ].
  rewrite Ht. vm_compute. reflexivity.
Defined.

(** ** Quiet ticks *)

(** X24. A tick that is the first one ever, or whose price lies in the zone
    already on record, never reaches the exchange: no price query, no
    position query, no order; the position, the grid level, the P&L state
    and the database are untouched, and only the tracker moves on. *)
Theorem same_zone_tick_is_silent
    (b : GridBot) (g : Gateway) (price : Q) :
  last_price b = None \/ last_grid_zone b = Some (get_grid_zone b price) ->
  let b' := snd (fst (handle_ticker b g (Data (Some price)))) in
  snd (handle_ticker b g (Data (Some price))) = g /\
  current_position b' = current_position b /\
  current_grid_level b' = current_grid_level b /\
  pnl_state b' = pnl_state b /\
  conn b' = conn b /\
  (~ price == 0 -> last_price b' = Some price).
Proof.
  intros Hquiet. cbv zeta. simpl.
  destruct (Py.truthy price) eqn:Htruthy.
  - destruct (check_grid_crossing_tracks b price)
      as (Hlp & _ & _ & Hp & Hg & Ha & Hd & Ht & Hc).
    assert (Hnone : fst (check_grid_crossing b price) = None).
    { unfold check_grid_crossing.
      destruct Hquiet as [ Hq | Hq ]; rewrite Hq.
      - reflexivity.
      - destruct (last_price b) as [ lp | ]; [ | reflexivity ].
        destruct (Py.truthy lp); [ | reflexivity ].
        rewrite Nat.eqb_refl. reflexivity. }
    destruct (check_grid_crossing b price) as [ crossed b1 ].
    simpl in *. subst crossed. simpl.
    unfold pnl_state. rewrite Ha, Hd, Ht.
    repeat split; try assumption. intros _. exact Hlp.
  - simpl. repeat split; try reflexivity.
    intros Hnz. apply truthy_true_iff in Hnz. congruence.
Qed.

Lemma same_zone_tick_is_silent_witness :
  let b := fst closure_run in
  let g := mkGateway [Some 14] [None] [OrderOk None] [] in
  (last_price b = None \/ last_grid_zone b = Some (get_grid_zone b 14)) /\
  snd (handle_ticker b g (Data (Some 14))) = g /\
  last_price (snd (fst (handle_ticker b g (Data (Some 14))))) = Some 14.
Proof.
  cbv zeta.
  assert (Hq : last_price (fst closure_run) = None \/
               last_grid_zone (fst closure_run)
               = Some (get_grid_zone (fst closure_run) 14))
    by (right; vm_compute; reflexivity).
  destruct (same_zone_tick_is_silent (fst closure_run)
              (mkGateway [Some 14] [None] [OrderOk None] []) 14 Hq)
    as (Hg & _ & _ & _ & _ & Hl).
  split; [ exact Hq | ].
  split; [ exact Hg | ].
  apply Hl. intros H. discriminate H.
Defined.

(** ** The database handle over a run *)

Lemma same_ledger_status_refl (b : GridBot) : same_ledger_status b b.
Proof. split; reflexivity. Qed.

Lemma same_ledger_status_trans (b1 b2 b3 : GridBot) :
  same_ledger_status b1 b2 -> same_ledger_status b2 b3 ->
  same_ledger_status b1 b3.
Proof.
  unfold same_ledger_status. intros [ H1 H2 ] [ H3 H4 ]. split.
  - rewrite H3. exact H1.
  - rewrite H4. exact H2.
Qed.

Lemma same_ledger_status_conn (b b' : GridBot) :
  conn b' = conn b -> same_ledger_status b b'.
Proof.
  intros H. unfold same_ledger_status, ledger_available. rewrite H.
  split; reflexivity.
Qed.

Lemma save_state_ledger (b : GridBot) : same_ledger_status b (save_state b).
Proof.
  unfold same_ledger_status, ledger_available, save_state.
  destruct (conn b) as [ db | ] eqn:Hc; [ | rewrite Hc; split; reflexivity ].
  destruct (bot_state db) as [ row | ] eqn:Hrow; simpl; rewrite ?Hc, ?Hrow.
  - split; split; intros H; try discriminate; congruence.
  - split; reflexivity.
Qed.

Lemma log_trade_ledger (b : GridBot) (s : string) (gl usdt pnl : Q) :
  same_ledger_status b (log_trade b s gl usdt pnl).
Proof.
  unfold same_ledger_status, ledger_available, log_trade.
  destruct (conn b) as [ db | ] eqn:Hc; simpl; rewrite ?Hc.
  - split; [ split; intros H; discriminate | reflexivity ].
  - split; reflexivity.
Qed.

Lemma update_pnl_tracking_ledger (b : GridBot) (pnl : Q) :
  same_ledger_status b (update_pnl_tracking b pnl).
Proof.
  unfold update_pnl_tracking. cbv zeta.
  match goal with
  | |- context [ save_state ?x ] =>
      apply same_ledger_status_trans with x; [ | apply save_state_ledger ]
  end.
  apply same_ledger_status_conn.
  destruct (Py.lt pnl 0); [ | destruct (Py.lt 0 _) ]; reflexivity.
Qed.

Lemma open_grid_position_ledger
    (b : GridBot) (g : Gateway) (price grid_level : Q) :
  same_ledger_status b (snd (fst (open_grid_position b g price grid_level))).
Proof.
  unfold open_grid_position.
  destruct (calculate_position_size _ _ _) as [ [ qty_opt | ] g1 ];
    [ | apply same_ledger_status_refl ].
  destruct (Py.truthy_opt qty_opt); [ | apply same_ledger_status_refl ].
  destruct (sl_tp_prices _ _ _ _ _) as [ [ sl tp ] | ];
    [ | apply same_ledger_status_refl ].
  destruct (place_order _ _ _ _ _) as [ [ order_id | msg ] g2 ];
    [ | apply same_ledger_status_refl ].
  cbv zeta. cbn [fst snd].
  match goal with
  | |- same_ledger_status _ (log_trade ?x ?s ?gl ?u ?p) =>
      apply same_ledger_status_trans with x; [ | apply log_trade_ledger ]
  end.
  apply same_ledger_status_conn. reflexivity.
Qed.

Lemma execute_reversal_ledger
    (b : GridBot) (g : Gateway) (pos : Position) (grid_level : Q) :
  same_ledger_status b (snd (fst (execute_reversal b g pos grid_level))).
Proof.
  unfold execute_reversal.
  destruct (get_price g) as [ p g1 ].
  destruct (Py.truthy_opt p); [ | apply same_ledger_status_refl ].
  cbv zeta.
  match goal with
  | |- context [ update_pnl_tracking ?x ?v ] =>
      pose proof (update_pnl_tracking_ledger x v) as Hu;
      set (b1 := update_pnl_tracking x v) in *
  end.
  destruct (reverse_position _ _ _ _ _ _) as [ [ [ order_id | msg ] | ] g2 ];
    cbn [fst snd]; try exact Hu.
  apply same_ledger_status_trans with b1; [ exact Hu | ].
  match goal with
  | |- same_ledger_status _ (log_trade ?x ?s ?gl ?u ?p) =>
      apply same_ledger_status_trans with x; [ | apply log_trade_ledger ]
  end.
  apply same_ledger_status_conn. reflexivity.
Qed.

Lemma monitor_position_status_ledger (b : GridBot) (g : Gateway) :
  same_ledger_status b (fst (monitor_position_status b g)).
Proof.
  unfold monitor_position_status.
  destruct (current_position b) as [ pos | ];
    [ | apply same_ledger_status_refl ].
  destruct (detect_position_closure b g) as [ [ | ] g1 ];
    [ | apply same_ledger_status_refl ].
  destruct (get_price g1) as [ p g2 ].
  destruct (Py.truthy_opt p); [ | apply same_ledger_status_refl ].
  cbv zeta. cbn [fst snd].
  match goal with
  | |- context [ update_pnl_tracking ?x ?v ] =>
      pose proof (update_pnl_tracking_ledger x v) as Hu;
      set (b1 := update_pnl_tracking x v) in *
  end.
  apply same_ledger_status_trans with b1; [ exact Hu | ].
  match goal with
  | |- context [ log_trade ?x ?s ?gl ?u ?p ] =>
      apply same_ledger_status_trans with (log_trade x s gl u p);
        [ apply log_trade_ledger | ]
  end.
  apply same_ledger_status_conn. reflexivity.
Qed.

Lemma step_ledger (s : GridBot * Gateway) (e : Event) :
  same_ledger_status (fst s) (fst (step s e)).
Proof.
  destruct s as [ b g ]. destruct e as [ msg | ]; simpl.
  - destruct msg as [ | [ price | ] ]; simpl;
      try apply same_ledger_status_refl.
    destruct (Py.truthy price); [ | apply same_ledger_status_refl ].
    destruct (check_grid_crossing_tracks b price)
      as (_ & _ & _ & _ & _ & _ & _ & _ & Hc).
    destruct (check_grid_crossing b price) as [ crossed b1 ]. simpl in Hc.
    apply same_ledger_status_trans with b1;
      [ apply same_ledger_status_conn; exact Hc | ].
    destruct (Py.truthy_opt crossed); [ | apply same_ledger_status_refl ].
    unfold execute_grid_trade.
    destruct (get_position_info g) as [ [ pos | ] g1 ].
    + destruct (should_reverse_position _ _ _ _);
        [ | apply same_ledger_status_refl ].
      pose proof (execute_reversal_ledger b1 g1 pos (Py.or_else crossed 0)) as H.
      destruct (execute_reversal b1 g1 pos (Py.or_else crossed 0))
        as [ [ r b2 ] g2 ]. exact H.
    + pose proof (open_grid_position_ledger b1 g1 price (Py.or_else crossed 0)) as H.
      destruct (open_grid_position b1 g1 price (Py.or_else crossed 0))
        as [ [ r b2 ] g2 ]. exact H.
  - pose proof (monitor_position_status_ledger b g) as H.
    destruct (monitor_position_status b g) as [ b' g' ]. exact H.
Qed.

Lemma run_ledger (events : list Event) (s : GridBot * Gateway) :
  same_ledger_status (fst s) (fst (run s events)).
Proof.
  unfold run. revert s.
  induction events as [ | e events IH ]; intros s; simpl.
  - apply same_ledger_status_refl.
  - apply same_ledger_status_trans with (fst (step s e));
      [ apply step_ledger | apply IH ].
Qed.

(** X25. The database handle is settled at construction.  A bot built on a
    database that opened holds the state row for its whole life, through
    start-up and every ticker message and poll; a bot built without one
    never gets one and keeps working from memory. *)
Theorem ledger_status_is_settled_at_construction
    (config : Config) (disk : option Db) (g : Gateway) (events : list Event) :
  let b := fst (run (start (GridBot_init config disk) g) events) in
  match disk with
  | Some _ => ledger_available b
  | None => conn b = None /\ trade_log b = []
  end.
Proof.
  cbv zeta.
  destruct (run_ledger events (start (GridBot_init config disk) g))
    as [ Hnone Hav ].
  destruct (start_frame (GridBot_init config disk) g) as (_ & _ & _ & _ & Hc).
  unfold ledger_available in Hav at 2. rewrite Hc in Hnone, Hav.
  destruct disk as [ db | ].
  - apply Hav. rewrite GridBot_init_conn.
    destruct (bot_state db) eqn:Hrow; [ rewrite Hrow | ]; discriminate.
  - assert (Hn : conn (fst (run (start (GridBot_init config None) g) events))
                 = None) by (apply Hnone; reflexivity).
    split; [ exact Hn | ]. unfold trade_log. rewrite Hn. reflexivity.
Qed.

(** ** A recorded position comes from an accepted order *)

Lemma client_place_order_accept (g : Gateway) (o : Order) (order_id : option string) :
  fst (client_place_order g o) = OrderOk order_id ->
  order_accepted g (snd (client_place_order g o)) o.
Proof.
  unfold client_place_order, next_order_answer, order_accepted. simpl.
  destruct (order_answers g) as [ | a rest ]; [ discriminate | ].
  intros ->. split; [ reflexivity | ]. exists order_id. reflexivity.
Qed.

Lemma order_accepted_after (g g1 g' : Gateway) (o : Order) :
  orders g1 = orders g -> order_answers g1 = order_answers g ->
  order_accepted g1 g' o -> order_accepted g g' o.
Proof.
  unfold order_accepted. intros Ho Ha [ H1 (id & H2) ].
  rewrite <- Ho, <- Ha. split; [ exact H1 | exists id; exact H2 ].
Qed.

Lemma open_grid_position_position
    (b : GridBot) (g : Gateway) (price grid_level : Q) :
  let b' := snd (fst (open_grid_position b g price grid_level)) in
  let g' := snd (open_grid_position b g price grid_level) in
  current_position b' = current_position b \/
  exists o p, order_accepted g g' o /\ current_position b' = Some p /\
              side p = order_side o /\ size p = order_qty o.
Proof.
  cbv zeta. unfold open_grid_position, calculate_position_size.
  pose proof (get_price_orders g) as [ Ho _ ].
  pose proof (get_price_order_answers g) as Ha.
  destruct (get_price g) as [ pr g1 ]. simpl in Ho, Ha.
  destruct (Py.truthy_opt pr); [ | left; reflexivity ].
  destruct (round_down _ _) as [ qty | ]; cbn [bind fst snd];
    [ | left; reflexivity ].
  destruct (Py.truthy_opt _); [ | left; reflexivity ].
  destruct (sl_tp_prices _ _ _ _ _) as [ [ sl tp ] | ]; [ | left; reflexivity ].
  unfold place_order.
  match goal with
  | |- context [ client_place_order g1 ?o ] =>
      pose proof (client_place_order_accept g1 o) as Hacc;
      destruct (client_place_order g1 o) as [ [ order_id | msg ] g2 ]
  end; [ | left; reflexivity ].
  right. cbn [fst snd] in *.
  eexists. eexists.
  split; [ apply (order_accepted_after g g1 g2 _ Ho Ha);
           apply (Hacc order_id); reflexivity | ].
  match goal with
  | |- context [ log_trade ?x ?s ?gl ?u ?p ] =>
      destruct (log_trade_frame x s gl u p) as (_ & _ & _ & Hp & _)
  end.
  rewrite Hp. simpl. repeat split; reflexivity.
Qed.

Lemma reverse_position_accept
    (g : Gateway) (qty : Q) (sd : string) (sl tp lev : Q)
    (order_id : option string) :
  fst (reverse_position g qty sd sl tp lev) = Return (OrderOk order_id) ->
  exists tp_price sl_price,
    order_accepted g (snd (reverse_position g qty sd sl tp lev))
      (mkOrder (opposite sd) (qty * 2) tp_price sl_price).
Proof.
  unfold reverse_position.
  pose proof (get_price_orders g) as [ Ho _ ].
  pose proof (get_price_order_answers g) as Ha.
  destruct (get_price g) as [ p g1 ]. simpl in Ho, Ha.
  destruct (Py.truthy_opt p); [ | simpl; discriminate ].
  destruct (sl_tp_prices _ _ _ _ _) as [ [ sl_price tp_price ] | ];
    [ | simpl; discriminate ].
  match goal with
  | |- context [ client_place_order g1 ?o ] =>
      pose proof (client_place_order_accept g1 o) as Hacc;
      destruct (client_place_order g1 o) as [ r g2 ]
  end.
  cbn [fst snd] in *. intros H. injection H as ->.
  exists tp_price, sl_price.
  apply (order_accepted_after g g1 g2 _ Ho Ha). apply (Hacc order_id).
  reflexivity.
Qed.

Lemma execute_reversal_position
    (b : GridBot) (g : Gateway) (pos : Position) (grid_level : Q) :
  let b' := snd (fst (execute_reversal b g pos grid_level)) in
  let g' := snd (execute_reversal b g pos grid_level) in
  current_position b' = current_position b \/
  exists o p, order_accepted g g' o /\ current_position b' = Some p /\
              side p = order_side o /\ size p = order_qty o.
Proof.
  cbv zeta. unfold execute_reversal.
  pose proof (get_price_orders g) as [ Ho _ ].
  pose proof (get_price_order_answers g) as Ha.
  destruct (get_price g) as [ pr g1 ]. simpl in Ho, Ha.
  destruct (Py.truthy_opt pr); [ | left; reflexivity ].
  cbv zeta.
  match goal with
  | |- context [ update_pnl_tracking ?x ?v ] =>
      destruct (update_pnl_tracking_fields x v) as (_ & _ & _ & Hp & _);
      set (b1 := update_pnl_tracking x v) in *
  end.
  match goal with
  | |- context [ reverse_position ?a ?q ?s ?x ?y ?z ] =>
      pose proof (reverse_position_accept a q s x y z) as Hacc;
      destruct (reverse_position a q s x y z)
        as [ [ [ order_id | msg ] | ] g2 ]
  end; cbn [fst snd] in *; try (left; exact Hp).
  right. destruct (Hacc order_id eq_refl) as (tp & sl & Hok).
  eexists. eexists.
  split; [ apply (order_accepted_after g g1 g2 _ Ho Ha); exact Hok | ].
  match goal with
  | |- context [ log_trade ?x ?s ?gl ?u ?p ] =>
      destruct (log_trade_frame x s gl u p) as (_ & _ & _ & Hp' & _)
  end.
  rewrite Hp'. simpl. repeat split; reflexivity.
Qed.

(** X26. The bot never records a position on its own account: after a
    ticker message or a poll the recorded position is what it was, or has
    been cleared, or is a new one, and then in that very event exactly one
    order was sent, the exchange answered it without an error, and the
    recorded side and size are those of the order. *)
Theorem recorded_position_comes_from_accepted_order
    (b : GridBot) (g : Gateway) (e : Event) :
  let b' := fst (step (b, g) e) in
  let g' := snd (step (b, g) e) in
  current_position b' = current_position b \/
  current_position b' = None \/
  exists o p, order_accepted g g' o /\ current_position b' = Some p /\
              side p = order_side o /\ size p = order_qty o.
Proof.
  cbv zeta. destruct e as [ msg | ]; simpl.
  - destruct msg as [ | [ price | ] ]; simpl; try (left; reflexivity).
    destruct (Py.truthy price); [ | left; reflexivity ].
    destruct (check_grid_crossing_tracks b price)
      as (_ & _ & _ & Hp & _).
    destruct (check_grid_crossing b price) as [ crossed b1 ]. simpl in Hp.
    destruct (Py.truthy_opt crossed); [ | left; exact Hp ].
    unfold execute_grid_trade.
    pose proof (get_position_info_orders g) as [ Ho _ ].
    pose proof (get_position_info_order_answers g) as Ha.
    destruct (get_position_info g) as [ [ pos | ] g1 ]; simpl in Ho, Ha.
    + destruct (should_reverse_position _ _ _ _); [ | left; exact Hp ].
      pose proof (execute_reversal_position b1 g1 pos (Py.or_else crossed 0)) as H.
      destruct (execute_reversal b1 g1 pos (Py.or_else crossed 0))
        as [ [ r b2 ] g2 ]. cbn [fst snd] in *.
      destruct H as [ H | (o & p & Hacc & H) ].
      * left. rewrite H. exact Hp.
      * right. right. exists o, p.
        split; [ apply (order_accepted_after g g1 g2 o Ho Ha); exact Hacc | exact H ].
    + pose proof (open_grid_position_position b1 g1 price (Py.or_else crossed 0)) as H.
      destruct (open_grid_position b1 g1 price (Py.or_else crossed 0))
        as [ [ r b2 ] g2 ]. cbn [fst snd] in *.
      destruct H as [ H | (o & p & Hacc & H) ].
      * left. rewrite H. exact Hp.
      * right. right. exists o, p.
        split; [ apply (order_accepted_after g g1 g2 o Ho Ha); exact Hacc | exact H ].
  - pose proof (monitor_position_status_level_position b g) as H.
    destruct (monitor_position_status b g) as [ b' g' ]. cbn [fst snd] in *.
    destruct H as [ -> | [ _ H ] ]; [ left; reflexivity | right; left; exact H ].
Qed.
